(** * FraudToRules: rules extracted from decision trees, and rule-based scoring

    A shallow embedding of [ftrules/fraud2rules.py] (class [FraudToRules]).

    - Python numbers: [int] is [Z], [float] is the IEEE-754 binary64 type
      [PrimFloat.float] with its primitive operations.
    - Exceptions: every fallible computation returns a [result]; an
      exception carries its Python class and its message template.
    - The estimator object: a record of hyper-parameters and of the
      attributes assigned by [fit]; an attribute that has not been assigned
      is [None].  [fit] mutates [self], so it is a computation in a state
      and error monad that keeps the assignments made before a failure.
    - Library collaborators (scikit-learn's input validation and tree
      learner, pandas' [DataFrame] and [query], numpy's shuffle, the float
      formatter) are parameters of the development, see [Estimator];
      [Reference] gives executable stand-ins for them.
    - The module is Python 2 code: [range] and [map] return lists. *)

From Stdlib Require Import List ZArith Lia Bool String Ascii Floats Uint63.
From Stdlib Require Import Permutation DecimalString.
Import ListNotations.

Local Open Scope string_scope.
Local Open Scope list_scope.
Local Open Scope Z_scope.

Set Implicit Arguments.
Set Warnings "-notation-for-abbreviation,-inexact-float".

(** ** Exceptions and results *)

Inductive exn_class : Type :=
| ValueError
| TypeError
| IndexError
| AttributeError
| NotFittedError
| OverflowError
| RecursionError
| OtherError.

(** [Raise c msg]: an exception of class [c]; [msg] is the message template
    of the [raise] statement (before [%]-formatting). *)
Inductive exn : Type :=
| Raise (c : exn_class) (msg : string).

Definition class_of (e : exn) : exn_class :=
  match e with Raise c _ => c end.

Inductive result (A : Type) : Type :=
| Ok (a : A)
| Err (e : exn).

Arguments Ok {A} a.
Arguments Err {A} e.

Definition rbind {A B : Type} (r : result A) (k : A -> result B) : result B :=
  match r with
  | Ok a => k a
  | Err e => Err e
  end.

Declare Scope res_scope.
Delimit Scope res_scope with res.
Notation "x <- r ;; k" := (rbind r (fun x => k))
  (at level 61, r at next level, right associativity) : res_scope.
Notation "' p <- r ;; k" := (rbind r (fun x => match x with p => k end))
  (at level 61, p pattern, r at next level, right associativity) : res_scope.

Definition is_ok {A : Type} (r : result A) : bool :=
  match r with Ok _ => true | Err _ => false end.

(** [mapM f l]: a list comprehension [[f(x) for x in l]] whose body may
    raise; elements are evaluated left to right and the first exception
    aborts the comprehension. *)
Fixpoint mapM {A B : Type} (f : A -> result B) (l : list A) : result (list B) :=
  match l with
  | [] => Ok []
  | x :: l' =>
      (y <- f x ;; ys <- mapM f l' ;; Ok (y :: ys))%res
  end.

(** ** Python and numpy sequences *)

(** [seq[i]] for a Python list or a one-dimensional numpy array: a
    negative index counts from the end, anything out of range raises
    [IndexError]. *)
Definition py_index {A : Type} (l : list A) (i : Z) : result A :=
  let n := Z.of_nat (List.length l) in
  let j := if i <? 0 then n + i else i in
  if (0 <=? j) && (j <? n) then
    match nth_error l (Z.to_nat j) with
    | Some a => Ok a
    | None => Err (Raise IndexError "index out of range")
    end
  else Err (Raise IndexError "index out of range").

(** [seq[:n]]: the first [n] elements; a negative [n] drops the last [-n]. *)
Definition py_slice_to {A : Type} (l : list A) (n : Z) : list A :=
  if n <? 0 then firstn (Z.to_nat (Z.of_nat (List.length l) + n)) l
  else firstn (Z.to_nat n) l.

(** [str.join(sep, parts)] *)
Fixpoint join (sep : string) (parts : list string) : string :=
  match parts with
  | [] => ""
  | [p] => p
  | p :: ps => (p ++ sep ++ join sep ps)%string
  end.

(** [str(n)] for a non-negative integer. *)
Definition str_of_nat (n : nat) : string :=
  NilEmpty.string_of_uint (Nat.to_uint n).

(** [range(n)] as a list of naturals (empty when [n <= 0]). *)
Definition range (n : Z) : list nat := seq 0 (Z.to_nat n).

(** ** The tree arena of scikit-learn ([tree.tree_]) *)

(** [_tree.TREE_UNDEFINED], the feature stored at a leaf. *)
Definition TREE_UNDEFINED : Z := -2.

Record Tree : Type := mkTree {
  feature : list Z;
  threshold : list float;
  children_left : list Z;
  children_right : list Z
}.

(** A fitted [DecisionTreeClassifier]: only its [tree_] attribute is read. *)
Record Classifier : Type := mkClassifier {
  tree_ : Tree
}.

(** ** [_tree_to_rules] *)

Section TreeWalker.

(** [str] of a threshold, as [format] renders it. *)
Variable str_of_float : float -> string.

(** ["{} {} {}".format(name, symbol, threshold)] *)
Definition format3 (name symbol : string) (thr : float) : string :=
  (name ++ " " ++ symbol ++ " " ++ str_of_float thr)%string.

(** The list comprehension that resolves the name of each node's feature. *)
Definition feature_name_of (feature_names : list string) (i : Z)
  : result string :=
  if i =? TREE_UNDEFINED then Ok "undefined!"
  else py_index feature_names i.

(** [recurse(node, base_name)]; [rules] is the list the closure appends
    to, threaded through the calls.  [depth] is the number of nested
    calls the interpreter still allows. *)
Fixpoint recurse (depth : nat) (t : Tree) (feature_name : list string)
    (node : Z) (base_name : list string) (rules : list string)
  : result (list string) :=
  match depth with
  | O => Err (Raise RecursionError "maximum recursion depth exceeded")
  | S depth' =>
      (f <- py_index (feature t) node ;;
       if negb (f =? TREE_UNDEFINED) then
         name <- py_index feature_name node ;;
         let symbol := "<=" in
         let symbol2 := ">" in
         thr <- py_index (threshold t) node ;;
         let text := base_name ++ [format3 name symbol thr] in
         l <- py_index (children_left t) node ;;
         rules1 <- recurse depth' t feature_name l text rules ;;
         let text2 := base_name ++ [format3 name symbol2 thr] in
         r <- py_index (children_right t) node ;;
         recurse depth' t feature_name r text2 rules1
       else
         Ok (rules ++ [join " and " base_name]))%res
  end.

Definition _tree_to_rules (depth : nat) (clf : Classifier)
    (feature_names : list string) : result (list string) :=
  let t := tree_ clf in
  (feature_name <- mapM (feature_name_of feature_names) (feature t) ;;
   recurse depth t feature_name 0 [] [])%res.

(** *** The binary tree an arena encodes

    The reading of the arena that the walk is checked against: a leaf, or
    a split on a named feature at a threshold with a left and a right
    subtree. *)

Inductive dtree : Type :=
| Leaf
| Node (name : string) (thr : float) (l r : dtree).

Fixpoint leaves (d : dtree) : nat :=
  match d with
  | Leaf => 1
  | Node _ _ l r => leaves l + leaves r
  end.

Fixpoint height (d : dtree) : nat :=
  match d with
  | Leaf => 0
  | Node _ _ l r => S (Nat.max (height l) (height r))
  end.

(** The comparisons on each root-to-leaf path, leaves from left to right:
    going left adds [name <= thr], going right adds [name > thr]. *)
Fixpoint paths (d : dtree) : list (list string) :=
  match d with
  | Leaf => [[]]
  | Node name thr l r =>
      map (cons (format3 name "<=" thr)) (paths l)
      ++ map (cons (format3 name ">" thr)) (paths r)
  end.

(** [represents t names node d]: the arena [t], read from index [node]
    with the feature names [names], is the tree [d]. *)
Inductive represents (t : Tree) (names : list string) : Z -> dtree -> Prop :=
| rep_leaf : forall node,
    py_index (feature t) node = Ok TREE_UNDEFINED ->
    represents t names node Leaf
| rep_node : forall node f name thr cl cr l r,
    py_index (feature t) node = Ok f ->
    f <> TREE_UNDEFINED ->
    py_index names f = Ok name ->
    py_index (threshold t) node = Ok thr ->
    py_index (children_left t) node = Ok cl ->
    py_index (children_right t) node = Ok cr ->
    represents t names cl l ->
    represents t names cr r ->
    represents t names node (Node name thr l r).

(** Every entry of [tree_.feature] is the leaf marker or indexes a name. *)
Definition features_named (t : Tree) (names : list string) : Prop :=
  Forall (fun i => i = TREE_UNDEFINED \/ exists s, py_index names i = Ok s)
         (feature t).

End TreeWalker.


(** ** numpy arrays and pandas frames *)

(** A two-dimensional array of floats: [shape[1]] and the rows. *)
Record ndarray : Type := mkArray {
  ncols : nat;
  rows : list (list float)
}.

Definition shape0 (X : ndarray) : nat := List.length (rows X).

(** [X[ind]] for a list of row positions. *)
Definition take_rows (X : ndarray) (ind : list nat) : result ndarray :=
  (rs <- mapM (fun i => py_index (rows X) (Z.of_nat i)) ind ;;
   Ok (mkArray (ncols X) rs))%res.

(** [X[:k]] and [X[k:]] for [k >= 0]. *)
Definition rows_to (X : ndarray) (k : nat) : ndarray :=
  mkArray (ncols X) (firstn k (rows X)).

Definition rows_from (X : ndarray) (k : nat) : ndarray :=
  mkArray (ncols X) (skipn k (rows X)).

(** A frame: the labels of its rows ([.index]) and its cells. *)
Record DataFrame : Type := mkFrame {
  index : list nat;
  values : ndarray
}.

(** ** Python values *)

(** The values a numeric hyper-parameter is given: a string, an integer or
    anything else, which the code treats as a float. *)
Inductive pyval : Type :=
| PyStr (s : string)
| PyInt (n : Z)
| PyFloat (f : float).

(** An element of the list [rules_]: a plain rule string, as [fit] stores
    it, or a pair [(rule, weight)], as [decision_function] unpacks it. *)
Inductive rule_entry : Type :=
| Plain (r : string)
| Weighted (r : string) (w : float).

(** [float(n)] for a row count. *)
Definition float_of_nat (n : nat) : float :=
  PrimFloat.of_uint63 (Uint63.of_Z (Z.of_nat n)).

(** [int(f)]: truncation toward zero. *)
Definition int_of_float (f : float) : result Z :=
  match Prim2SF f with
  | S754_zero _ => Ok 0
  | S754_finite sgn m e =>
      let v := if 0 <=? e then Z.pos m * 2 ^ e
               else Z.quot (Z.pos m) (2 ^ (- e)) in
      Ok (if sgn then - v else v)
  | S754_infinity _ =>
      Err (Raise OverflowError "cannot convert float infinity to integer")
  | S754_nan => Err (Raise ValueError "cannot convert float NaN to integer")
  end.

(** ** The estimator object *)

(** The ten hyper-parameters of [__init__], then the attributes [fit]
    assigns ([max_samples_], [rules_], [estimators_] and [rules], the list
    of pairs of line 212) and [estimators_samples_], which the docstring
    announces and [predict] looks for.  [None]: not assigned. *)
Record FraudToRules : Type := mkFraudToRules {
  n_estimators : Z;
  feature_names : option (list string);
  max_samples : pyval;
  max_features : pyval;
  max_depth : option Z;
  min_samples_split : pyval;
  bootstrap : bool;
  n_jobs : Z;
  random_state : option Z;
  verbose : Z;
  max_samples_ : option Z;
  rules_ : option (list rule_entry);
  estimators_ : option (list Classifier);
  estimators_samples_ : option (list (list nat));
  rules : option (list (string * DataFrame))
}.

(** [__init__]: stores the hyper-parameters; no fitted attribute exists. *)
Definition __init__ (n_estimators : Z) (feature_names : option (list string))
    (max_samples max_features : pyval) (max_depth : option Z)
    (min_samples_split : pyval) (bootstrap : bool) (n_jobs : Z)
    (random_state : option Z) (verbose : Z) : FraudToRules :=
  mkFraudToRules n_estimators feature_names max_samples max_features
    max_depth min_samples_split bootstrap n_jobs random_state verbose
    None None None None None.

(** [FraudToRules()] with every default. *)
Definition default_estimator : FraudToRules :=
  __init__ 1 None (PyFloat 1) (PyFloat 1) None (PyInt 2) false 1 None 0.

(** Attribute assignment [self.<name> = v]. *)
Definition set_max_samples_ (v : option Z) (self : FraudToRules) : FraudToRules :=
  {| n_estimators := n_estimators self;
     feature_names := feature_names self;
     max_samples := max_samples self;
     max_features := max_features self;
     max_depth := max_depth self;
     min_samples_split := min_samples_split self;
     bootstrap := bootstrap self;
     n_jobs := n_jobs self;
     random_state := random_state self;
     verbose := verbose self;
     max_samples_ := v;
     rules_ := rules_ self;
     estimators_ := estimators_ self;
     estimators_samples_ := estimators_samples_ self;
     rules := rules self |}.

Definition set_rules_ (v : option (list rule_entry)) (self : FraudToRules) : FraudToRules :=
  {| n_estimators := n_estimators self;
     feature_names := feature_names self;
     max_samples := max_samples self;
     max_features := max_features self;
     max_depth := max_depth self;
     min_samples_split := min_samples_split self;
     bootstrap := bootstrap self;
     n_jobs := n_jobs self;
     random_state := random_state self;
     verbose := verbose self;
     max_samples_ := max_samples_ self;
     rules_ := v;
     estimators_ := estimators_ self;
     estimators_samples_ := estimators_samples_ self;
     rules := rules self |}.

Definition set_estimators_ (v : option (list Classifier)) (self : FraudToRules) : FraudToRules :=
  {| n_estimators := n_estimators self;
     feature_names := feature_names self;
     max_samples := max_samples self;
     max_features := max_features self;
     max_depth := max_depth self;
     min_samples_split := min_samples_split self;
     bootstrap := bootstrap self;
     n_jobs := n_jobs self;
     random_state := random_state self;
     verbose := verbose self;
     max_samples_ := max_samples_ self;
     rules_ := rules_ self;
     estimators_ := v;
     estimators_samples_ := estimators_samples_ self;
     rules := rules self |}.

Definition set_rules (v : option (list (string * DataFrame))) (self : FraudToRules) : FraudToRules :=
  {| n_estimators := n_estimators self;
     feature_names := feature_names self;
     max_samples := max_samples self;
     max_features := max_features self;
     max_depth := max_depth self;
     min_samples_split := min_samples_split self;
     bootstrap := bootstrap self;
     n_jobs := n_jobs self;
     random_state := random_state self;
     verbose := verbose self;
     max_samples_ := max_samples_ self;
     rules_ := rules_ self;
     estimators_ := estimators_ self;
     estimators_samples_ := estimators_samples_ self;
     rules := v |}.

(** [hasattr(self, name)]: a hyper-parameter always exists, a fitted
    attribute once it has been assigned. *)
Definition isSome {A : Type} (o : option A) : bool :=
  match o with Some _ => true | None => false end.

Definition hasattr (self : FraudToRules) (name : string) : bool :=
  if String.eqb name "max_samples_" then isSome (max_samples_ self)
  else if String.eqb name "rules_" then isSome (rules_ self)
  else if String.eqb name "estimators_" then isSome (estimators_ self)
  else if String.eqb name "estimators_samples_"
       then isSome (estimators_samples_ self)
  else if String.eqb name "rules" then isSome (rules self)
  else existsb (String.eqb name)
         ["n_estimators"; "feature_names"; "max_samples"; "max_features";
          "max_depth"; "min_samples_split"; "bootstrap"; "n_jobs";
          "random_state"; "verbose"].

(** [sklearn.utils.validation.check_is_fitted(self, attributes)]: raises
    [NotFittedError] unless every listed attribute exists. *)
Definition check_is_fitted (self : FraudToRules) (attributes : list string)
  : result unit :=
  if forallb (hasattr self) attributes then Ok tt
  else Err (Raise NotFittedError
              "This %(name)s instance is not fitted yet. Call 'fit' with appropriate arguments before using this method.").

(** The hyper-parameters, in the order of [__init__]: what
    [BaseEstimator.get_params] reports. *)
Definition hyper_parameters (self : FraudToRules) :=
  (n_estimators self, feature_names self, max_samples self,
   max_features self, max_depth self, min_samples_split self,
   bootstrap self, n_jobs self, random_state self, verbose self).

(** ** Computations that assign attributes of [self] *)

(** The state is the estimator; an exception leaves the assignments made so
    far in place. *)
Definition M (A : Type) : Type := FraudToRules -> FraudToRules * result A.

Definition ret {A : Type} (a : A) : M A := fun self => (self, Ok a).

Definition bind {A B : Type} (c : M A) (k : A -> M B) : M B :=
  fun self =>
    match c self with
    | (self', Ok a) => k a self'
    | (self', Err e) => (self', Err e)
    end.

Definition lift {A : Type} (r : result A) : M A := fun self => (self, r).

Definition get : M FraudToRules := fun self => (self, Ok self).

Definition modify (f : FraudToRules -> FraudToRules) : M unit :=
  fun self => (f self, Ok tt).

Declare Scope m_scope.
Delimit Scope m_scope with M.
Notation "x <- c ;; k" := (bind c (fun x => k))
  (at level 61, c at next level, right associativity) : m_scope.
Notation "' p <- c ;; k" := (bind c (fun x => match x with p => k end))
  (at level 61, p pattern, c at next level, right associativity) : m_scope.
Notation "c ;;; k" := (bind c (fun _ => k))
  (at level 61, right associativity) : m_scope.

(** ** Sorting with a key *)

(** [-x[1]] on a rule string: [x[1]] is its second character, and a string
    has no unary minus. *)
Definition neg_second (x : string) : result float :=
  match String.get 1 x with
  | None => Err (Raise IndexError "string index out of range")
  | Some _ => Err (Raise TypeError "bad operand type for unary -: 'str'")
  end.

(** Stable insertion of [x] with key [kx] in front of a key-sorted list. *)
Fixpoint insert_by_key {A : Type} (kx : float) (x : A) (l : list (float * A))
  : list (float * A) :=
  match l with
  | [] => [(kx, x)]
  | (ky, y) :: l' =>
      if (ky <? kx)%float then (ky, y) :: insert_by_key kx x l'
      else (kx, x) :: (ky, y) :: l'
  end.

(** [sorted(l, key=key)]: every key is computed first, in order; the sort
    is ascending and stable. *)
Definition sorted_by_key {A : Type} (key : A -> result float) (l : list A)
  : result (list A) :=
  (keys <- mapM key l ;;
   Ok (map snd (fold_right (fun kx acc => insert_by_key (fst kx) (snd kx) acc)
                           [] (combine keys l))))%res.

(** ** numpy in-place update through an index list *)

Definition mem_nat (i : nat) (l : list nat) : bool := existsb (Nat.eqb i) l.

(** [scores[idx] += w]: every position of [idx] must exist; each listed
    position receives its old value plus [w], once, whatever the number of
    times it is listed. *)
Definition iadd_at (scores : list float) (idx : list nat) (w : float)
  : result (list float) :=
  (_ <- mapM (fun i => py_index scores (Z.of_nat i)) idx ;;
   Ok (map (fun p => if mem_nat (fst p) idx then (snd p + w)%float else snd p)
           (combine (seq 0 (List.length scores)) scores)))%res.

(** A loop whose body may raise. *)
Fixpoint foldM {A S : Type} (body : S -> A -> result S) (l : list A) (s : S)
  : result S :=
  match l with
  | [] => Ok s
  | x :: l' => (s' <- body s x ;; foldM body l' s')%res
  end.

(** ** The estimator's methods *)

Section Estimator.

(** Collaborators from the libraries the module imports. *)

(** [str] of a float, as [format] renders a threshold. *)
Variable str_of_float : float -> string.

(** The number of nested calls left to [recurse]. *)
Variable recursion_limit : nat.

(** [sklearn.utils.validation.check_X_y] and [check_array]. *)
Variable check_X_y : ndarray -> list Z -> result (ndarray * list Z).
Variable check_array : ndarray -> result ndarray.

(** [np.random.shuffle], as the permutation it leaves in its argument. *)
Variable shuffle : list nat -> list nat.

(** [DecisionTreeClassifier(max_features, max_depth, min_samples_split)
    .fit(X, y)]; the first argument is the rank of the call in the loop,
    each call drawing its own randomness. *)
Variable tree_fit :
  nat -> pyval -> option Z -> pyval -> ndarray -> list Z -> result Classifier.

(** [pandas.DataFrame(X, columns=names)] and [df.query(expr)]. *)
Variable pandas_DataFrame : ndarray -> option (list string) -> result DataFrame.
Variable query : DataFrame -> string -> result DataFrame.

(** Lines 154-172: the number of samples [max_samples] stands for.  The
    warning issued when an integer [max_samples] exceeds the row count does
    not change the control flow and is left out; the first message is
    written with single quotes around [auto]. *)
Definition resolve_max_samples (self : FraudToRules) (n_samples : nat)
  : result Z :=
  match max_samples self with
  | PyStr _ =>
      Err (Raise ValueError
             "max_samples (%s) is not supported.Valid choices are: 'auto', int orfloat")
  | PyInt k =>
      if k >? Z.of_nat n_samples then Ok (Z.of_nat n_samples) else Ok k
  | PyFloat f =>
      if negb ((0 <? f)%float && (f <=? 1)%float) then
        Err (Raise ValueError "max_samples must be in (0, 1], got %r")
      else int_of_float (f * float_of_nat n_samples)%float
  end.

(** The names handed to [_tree_to_rules]. *)
Definition rule_feature_names (self : FraudToRules) (X_train : ndarray)
  : list string :=
  match feature_names self with
  | Some names => names
  | None => map str_of_nat (range (Z.of_nat (ncols X_train)))
  end.

(** Lines 179-192, the loop over [range(self.n_estimators)].  [ests] and
    [acc] are the lists held by [self.estimators_] and [self.rules_], which
    this call of [fit] has just created and alone extends. *)
Fixpoint fit_trees (X_train : ndarray) (y : list Z) (its : list nat)
    (ests : list Classifier) (acc : list string) : M (list string) :=
  match its with
  | [] => ret acc
  | i :: its' =>
      (self <- get ;;
       clf <- lift (tree_fit i (max_features self) (max_depth self)
                      (min_samples_split self) X_train y) ;;
       let ests' := ests ++ [clf] in
       modify (set_estimators_ (Some ests')) ;;;
       rules <- lift (_tree_to_rules str_of_float recursion_limit clf
                        (rule_feature_names self X_train)) ;;
       let acc' := acc ++ rules in
       modify (set_rules_ (Some (map Plain acc'))) ;;;
       fit_trees X_train y its' ests' acc')%M
  end.

(** Lines 151-218: [fit] once the rows are split. *)
Definition fit_from_split (X_test X_train : ndarray) (y : list Z) : M unit :=
  (let n_samples := shape0 X_train in
   self <- get ;;
   max_samples <- lift (resolve_max_samples self n_samples) ;;
   modify (set_max_samples_ (Some max_samples)) ;;;
   modify (set_rules_ (Some [])) ;;;
   modify (set_estimators_ (Some [])) ;;;
   rules_list <- fit_trees X_train y (range (n_estimators self)) [] [] ;;
   df <- lift (pandas_DataFrame X_test (feature_names self)) ;;
   pairs <- lift (mapM (fun r => (q <- query df r ;; Ok (r, q))%res)
                       rules_list) ;;
   modify (set_rules (Some pairs)) ;;;
   sorted_rules <- lift (sorted_by_key neg_second rules_list) ;;
   modify (set_rules_ (Some (map Plain sorted_rules))))%M.

(** [fit(X, y)].  [int(X.shape[0] / 10.)] is the quotient of the row count
    by ten: the float division is exact enough for any array that fits in
    memory. *)
Definition fit (X : ndarray) (y : list Z) : M unit :=
  ('(X, y) <- lift (check_X_y X y) ;;
   let testing_size := Nat.div (shape0 X) 10 in
   let ind_test := shuffle (range (Z.of_nat (shape0 X))) in
   X_perm <- lift (take_rows X ind_test) ;;
   let X_test := rows_to X_perm testing_size in
   let X_train := rows_from X_perm testing_size in
   fit_from_split X_test X_train y)%M.

(** [for (r, w) in selected_rules: scores[list(df.query(r).index)] += w],
    one turn.  A pair unpacks into its rule and weight; a plain string
    unpacks only when it has two characters, and its second character
    cannot be added to a float. *)
Definition score_rule (df : DataFrame) (scores : list float) (e : rule_entry)
  : result (list float) :=
  match e with
  | Weighted r w =>
      (q <- query df r ;; iadd_at scores (index q) w)%res
  | Plain s =>
      match s with
      | String c1 (String _ EmptyString) =>
          (q <- query df (String c1 EmptyString) ;;
           _ <- mapM (fun i => py_index scores (Z.of_nat i)) (index q) ;;
           Err (Raise TypeError "ufunc 'add' did not contain a loop with signature matching types"))%res
      | _ => Err (Raise ValueError "wrong number of values to unpack")
      end
  end.

(** [decision_function(X)] *)
Definition decision_function (self : FraudToRules) (X : ndarray)
  : result (list float) :=
  match rules_ self with
  | None =>
      Err (Raise AttributeError "'FraudToRules' object has no attribute 'rules_'")
  | Some all_rules =>
      let selected_rules := py_slice_to all_rules (n_estimators self) in
      (df <- pandas_DataFrame X (feature_names self) ;;
       let scores := repeat 0%float (shape0 X) in
       scores <- foldM (score_rule df) selected_rules scores ;;
       Ok (map PrimFloat.opp scores))%res
  end.

(** [2 * (score == 0) - 1] *)
Definition label_of (score : float) : Z :=
  2 * (if (score =? 0)%float then 1 else 0) - 1.

(** [predict(X)] *)
Definition predict (self : FraudToRules) (X : ndarray) : result (list Z) :=
  (_ <- check_is_fitted self
          ["rules_"; "estimators_"; "estimators_samples_"; "max_samples_"] ;;
   X <- check_array X ;;
   scores <- decision_function self X ;;
   Ok (map label_of scores))%res.

(** *** Readings used to state what the methods compute *)

(** The estimators a program can hold: one just constructed, or one on
    which [fit] has been called, whether the call returned or raised. *)
Inductive reachable : FraudToRules -> Prop :=
| reach_init : forall n names ms mf md mss bs nj rs vb,
    reachable (__init__ n names ms mf md mss bs nj rs vb)
| reach_fit : forall self X y,
    reachable self -> reachable (fst (fit X y self)).

(** Row [i] of [df] satisfies the rule [r]: [i] is in [df.query(r).index]. *)
Definition satisfies (df : DataFrame) (i : nat) (r : string) : bool :=
  match query df r with
  | Ok q => mem_nat i (index q)
  | Err _ => false
  end.

(** The weights of the rules of [selected] that row [i] satisfies, in the
    order of the list. *)
Definition matched_weights (df : DataFrame) (i : nat)
    (selected : list (string * float)) : list float :=
  map snd (filter (fun rw => satisfies df i (fst rw)) selected).

End Estimator.

(** The float sum [((0 + w1) + w2) + ...]. *)
Definition weight_sum (ws : list float) : float :=
  fold_left PrimFloat.add ws 0%float.

(** The list [rules_] made of weighted pairs. *)
Definition weighted_rules (ranked : list (string * float)) : list rule_entry :=
  map (fun rw => Weighted (fst rw) (snd rw)) ranked.

(** ** Reference collaborators

    Executable stand-ins for the library functions, used to run the methods
    on concrete inputs. *)

Module Reference.

(** [str] of a float, for integral values and positive halves. *)
Definition str_of_float (f : float) : string :=
  match int_of_float f with
  | Ok z =>
      let fz := if z <? 0 then (- float_of_nat (Z.to_nat (- z)))%float
                else float_of_nat (Z.to_nat z) in
      let digits := NilEmpty.string_of_int (Z.to_int z) in
      if (fz =? f)%float then (digits ++ ".0")%string
      else if ((fz + 0.5)%float =? f)%float then (digits ++ ".5")%string
      else "<float>"
  | Err _ => "<float>"
  end.

(** Validation: at least one row, and as many labels as rows. *)
Definition check_X_y (X : ndarray) (y : list Z) : result (ndarray * list Z) :=
  if (shape0 X =? 0)%nat then
    Err (Raise ValueError "Found array with 0 sample(s)")
  else if (List.length y =? shape0 X)%nat then Ok (X, y)
  else Err (Raise ValueError
              "Found input variables with inconsistent numbers of samples").

Definition check_array (X : ndarray) : result ndarray :=
  if (shape0 X =? 0)%nat then
    Err (Raise ValueError "Found array with 0 sample(s)")
  else Ok X.

(** One outcome of a shuffle: the list reversed. *)
Definition shuffle (l : list nat) : list nat := rev l.

(** The single-node tree. *)
Definition leaf_tree : Tree :=
  mkTree [TREE_UNDEFINED] [(-2)%float] [-1] [-1].

(** The tree with one split, on feature 0 at 0.5. *)
Definition stump_tree : Tree :=
  mkTree [0; TREE_UNDEFINED; TREE_UNDEFINED]
         [0.5%float; (-2)%float; (-2)%float] [1; -1; -1] [2; -1; -1].

(** A learner: it rejects labels whose number differs from the number of
    rows, grows a single leaf on constant labels and the stump above
    otherwise (the tree scikit-learn grows on the rows [[0], [1]] with two
    different labels). *)
Definition tree_fit (_ : nat) (_ : pyval) (_ : option Z) (_ : pyval)
    (X : ndarray) (y : list Z) : result Classifier :=
  if negb (List.length y =? shape0 X)%nat then
    Err (Raise ValueError
           "Number of labels=%d does not match number of samples=%d")
  else
    match y with
    | [] => Ok (mkClassifier leaf_tree)
    | l :: ls =>
        if forallb (Z.eqb l) ls then Ok (mkClassifier leaf_tree)
        else Ok (mkClassifier stump_tree)
    end.

(** A frame over the rows of [X], labelled by position. *)
Definition pandas_DataFrame (X : ndarray) (names : option (list string))
  : result DataFrame :=
  match names with
  | Some ns =>
      if (List.length ns =? ncols X)%nat
      then Ok (mkFrame (seq 0 (shape0 X)) X)
      else Err (Raise ValueError "Shape of passed values does not match")
  | None => Ok (mkFrame (seq 0 (shape0 X)) X)
  end.

(** An evaluator for a fixed table of expressions, each with the row
    predicate it denotes; like pandas it rejects the empty expression. *)
Definition query (table : list (string * (list float -> bool)))
    (df : DataFrame) (expr : string) : result DataFrame :=
  if String.eqb expr EmptyString then
    Err (Raise ValueError "expr cannot be an empty string")
  else
    match find (fun e => String.eqb expr (fst e)) table with
    | None => Err (Raise OtherError "name is not defined")
    | Some (_, holds) =>
        let kept := filter (fun p => holds (snd p))
                           (combine (index df) (rows (values df))) in
        Ok (mkFrame (map fst kept)
                    (mkArray (ncols (values df)) (map snd kept)))
    end.

End Reference.

(** ** Concrete inputs *)

Module Scenario.

(** A tree with two splits and three leaves, over the features
    ["age"; "amount"]. *)
Definition two_split_tree : Tree :=
  mkTree [0; TREE_UNDEFINED; 1; TREE_UNDEFINED; TREE_UNDEFINED]
         [30.5%float; (-2)%float; 1000%float; (-2)%float; (-2)%float]
         [1; -1; 3; -1; -1]
         [2; -1; 4; -1; -1].

Definition two_split_dtree : dtree :=
  Node "age" 30.5%float Leaf (Node "amount" 1000%float Leaf Leaf).

(** The two rules of the scoring scenario and the predicates they denote. *)
Definition table : list (string * (list float -> bool)) :=
  [("age <= 30", fun row => (nth 0 row 0 <=? 30)%float);
   ("amount > 1000", fun row => (1000 <? nth 1 row 0)%float)].

Definition query : DataFrame -> string -> result DataFrame :=
  Reference.query table.

(** An estimator holding the two weighted rules, with every attribute the
    fitted-state check looks for. *)
Definition estimator : FraudToRules :=
  mkFraudToRules 2 (Some ["age"; "amount"]) (PyFloat 1) (PyFloat 1) None
    (PyInt 2) false 1 None 0
    (Some 3)
    (Some [Weighted "age <= 30" 0.8%float; Weighted "amount > 1000" 0.5%float])
    (Some []) (Some []) None.

Definition ranked : list (string * float) :=
  [("age <= 30", 0.8%float); ("amount > 1000", 0.5%float)].

(** Three records: one matches both rules, one neither, one the first. *)
Definition records : ndarray :=
  mkArray 2 [[25%float; 2000%float]; [40%float; 10%float]; [20%float; 5%float]].

(** An estimator that requests no tree. *)
Definition no_tree : FraudToRules :=
  __init__ 0 None (PyFloat 1) (PyFloat 1) None (PyInt 2) false 1 None 0.

(** The default estimator over one feature named ["x"], and the two rules
    of a split of that feature at 0.5. *)
Definition named : FraudToRules :=
  __init__ 1 (Some ["x"]) (PyFloat 1) (PyFloat 1) None (PyInt 2) false 1
    None 0.

Definition table_x : list (string * (list float -> bool)) :=
  [("x <= 0.5", fun row => (nth 0 row 0 <=? 0.5)%float);
   ("x > 0.5", fun row => (0.5 <? nth 0 row 0)%float)].

(** An estimator whose [max_samples] is the float 1.5. *)
Definition bad_max_samples : FraudToRules :=
  __init__ 1 None (PyFloat 1.5) (PyFloat 1) None (PyInt 2) false 1 None 0.

(** Training sets of one, two and ten rows, one feature. *)
Definition X1 : ndarray := mkArray 1 [[0%float]].
Definition X2 : ndarray := mkArray 1 [[0%float]; [1%float]].
Definition X10 : ndarray :=
  mkArray 1 (map (fun i => [float_of_nat i]) (seq 0 10)).
Definition y10 : list Z := [1; 1; 1; 1; 1; -1; -1; -1; -1; -1].

(** [fit] with the reference collaborators and no known query expression. *)
Definition fit (X : ndarray) (y : list Z) : M unit :=
  fit Reference.str_of_float 100 Reference.check_X_y Reference.shuffle
      Reference.tree_fit Reference.pandas_DataFrame (Reference.query []) X y.

End Scenario.

(** * Properties *)

(** ** Sequences *)

Lemma mapM_length {A B : Type} (f : A -> result B) (l : list A) (l' : list B) :
  mapM f l = Ok l' -> List.length l' = List.length l.
Proof.
  revert l'; induction l as [|x l IH]; simpl; intros l' H.
  - inversion H; reflexivity.
  - destruct (f x) as [y|e]; simpl in H; [|discriminate].
    destruct (mapM f l) as [ys|e]; simpl in H; [|discriminate].
    inversion H; subst; simpl; f_equal; apply IH; reflexivity.
Qed.

Lemma mapM_nth_error {A B : Type} (f : A -> result B) (l : list A) (l' : list B) :
  mapM f l = Ok l' ->
  forall n x, nth_error l n = Some x ->
  exists y, f x = Ok y /\ nth_error l' n = Some y.
Proof.
  revert l'; induction l as [|a l IH]; simpl; intros l' H n x Hn.
  - destruct n; discriminate.
  - destruct (f a) as [y|e] eqn:Hfa; simpl in H; [|discriminate].
    destruct (mapM f l) as [ys|e]; simpl in H; [|discriminate].
    inversion H; subst; clear H.
    destruct n as [|n]; simpl in *.
    + inversion Hn; subst; eauto.
    + eapply IH; eauto.
Qed.

Lemma mapM_total {A B : Type} (f : A -> result B) (l : list A) :
  Forall (fun x => exists y, f x = Ok y) l -> exists l', mapM f l = Ok l'.
Proof.
  induction 1 as [|x l [y Hy] _ [l' IH]]; simpl.
  - eauto.
  - rewrite Hy, IH; simpl; eauto.
Qed.

Lemma py_index_Ok {A : Type} (l : list A) (i : Z) (a : A) :
  py_index l i = Ok a <->
  let n := Z.of_nat (List.length l) in
  let j := if i <? 0 then n + i else i in
  0 <= j < n /\ nth_error l (Z.to_nat j) = Some a.
Proof.
  unfold py_index; cbv zeta.
  set (n := Z.of_nat (List.length l)).
  set (j := if i <? 0 then n + i else i).
  destruct (0 <=? j) eqn:H0; destruct (j <? n) eqn:H1; simpl;
    try (split; [discriminate | intros [? _]; lia]).
  destruct (nth_error l (Z.to_nat j)) as [b|] eqn:Hn.
  - split; [intros H; inversion H; subst; split; [lia | reflexivity]
           | intros [_ H]; inversion H; reflexivity].
  - split; [discriminate | intros [_ H]; discriminate].
Qed.

(** Indexing the result of a comprehension is the comprehension's body at
    the indexed element. *)
Lemma py_index_mapM {A B : Type} (f : A -> result B) (l : list A) (l' : list B) :
  mapM f l = Ok l' ->
  forall i x, py_index l i = Ok x ->
  exists y, f x = Ok y /\ py_index l' i = Ok y.
Proof.
  intros HM i x Hx.
  apply py_index_Ok in Hx; cbv zeta in Hx; destruct Hx as [Hr Hn].
  destruct (mapM_nth_error _ _ HM _ Hn) as [y [Hy Hn']].
  exists y; split; [exact Hy|].
  apply py_index_Ok; cbv zeta.
  rewrite (mapM_length _ _ HM); split; assumption.
Qed.

(** ** The tree walk *)

Section TreeWalkerFacts.

Variable str_of_float : float -> string.

Lemma paths_length (d : dtree) :
  List.length (paths str_of_float d) = leaves d.
Proof.
  induction d as [|name thr l IHl r IHr]; simpl.
  - reflexivity.
  - rewrite length_app, !length_map, IHl, IHr; reflexivity.
Qed.

(** One call of [recurse] on a node that encodes [d] appends, in order, one
    joined rule per path of [d], each prefixed by the comparisons collected
    on the way down. *)
Lemma recurse_represents (t : Tree) (names fname : list string) :
  mapM (feature_name_of names) (feature t) = Ok fname ->
  forall d node, represents t names node d ->
  forall depth base rules, (height d < depth)%nat ->
  recurse str_of_float depth t fname node base rules
  = Ok (rules ++ map (fun p => join " and " (base ++ p)) (paths str_of_float d)).
Proof.
  intros HM d node Hrep.
  induction Hrep as [node Hf
                    | node f name thr cl cr l r Hf Hne Hname Hthr Hcl Hcr _ IHl _ IHr];
    intros depth base rules Hd.
  - destruct depth as [|depth]; [simpl in Hd; lia|].
    simpl. rewrite Hf. simpl. rewrite app_nil_r. reflexivity.
  - destruct depth as [|depth]; [simpl in Hd; lia|].
    simpl in Hd.
    destruct (py_index_mapM _ _ HM _ Hf) as [nm [Hnm Hidx]].
    unfold feature_name_of in Hnm.
    assert (Hneb : (f =? TREE_UNDEFINED) = false) by (apply Z.eqb_neq; exact Hne).
    rewrite Hneb, Hname in Hnm. inversion Hnm; subst nm; clear Hnm.
    cbn [recurse]. rewrite Hf. cbn [rbind]. rewrite Hneb. cbn [negb].
    rewrite Hidx. cbn [rbind]. rewrite Hthr. cbn [rbind].
    rewrite Hcl. cbn [rbind].
    rewrite IHl by lia. cbn [rbind].
    rewrite Hcr. cbn [rbind].
    rewrite IHr by lia.
    f_equal. cbn [paths]. rewrite map_app, !map_map, <- app_assoc.
    f_equal.
    f_equal; apply map_ext; intros p; rewrite <- app_assoc; reflexivity.
Qed.

(** C1: for a classifier whose arena encodes the binary tree [d] from the
    root (index 0), [_tree_to_rules] returns exactly one rule per leaf of
    [d], in left-to-right leaf order; each rule is the [' and '] conjunction
    of the comparisons on the path to its leaf, where a left descent
    contributes [name <= threshold] and a right descent [name > threshold].
    The walk needs one nested call per level of the tree. *)
Theorem tree_to_rules_one_rule_per_leaf
    (clf : Classifier) (names : list string) (d : dtree) (depth : nat) :
  represents (tree_ clf) names 0 d ->
  features_named (tree_ clf) names ->
  (height d < depth)%nat ->
  exists rules,
    _tree_to_rules str_of_float depth clf names = Ok rules
    /\ rules = map (join " and ") (paths str_of_float d)
    /\ List.length rules = leaves d.
Proof.
  intros Hrep Hnamed Hd.
  assert (HM : exists fname,
             mapM (feature_name_of names) (feature (tree_ clf)) = Ok fname).
  { apply mapM_total. unfold features_named in Hnamed.
    eapply Forall_impl; [|exact Hnamed].
    intros i [Hi | [s Hs]]; unfold feature_name_of.
    - subst i; simpl; eauto.
    - destruct (i =? TREE_UNDEFINED); eauto. }
  destruct HM as [fname HM].
  exists (map (join " and ") (paths str_of_float d)).
  split; [|split; [reflexivity|]].
  - unfold _tree_to_rules. cbv zeta. rewrite HM. cbn [rbind].
    rewrite (recurse_represents HM Hrep _ _ Hd). reflexivity.
  - rewrite length_map. apply paths_length.
Qed.

End TreeWalkerFacts.

(** ** Assignments made by a computation *)

(** [preserves R c]: the estimator after [c] is related by [R] to the
    estimator before, whether [c] returns or raises. *)
Definition preserves (R : FraudToRules -> FraudToRules -> Prop)
    {A : Type} (c : M A) : Prop :=
  forall self, R self (fst (c self)).

Section Preserves.

Variable R : FraudToRules -> FraudToRules -> Prop.
Hypothesis R_refl : forall self, R self self.
Hypothesis R_trans : forall s1 s2 s3, R s1 s2 -> R s2 s3 -> R s1 s3.

Lemma preserves_ret {A : Type} (a : A) : preserves R (ret a).
Proof. intros self; apply R_refl. Qed.

Lemma preserves_lift {A : Type} (r : result A) : preserves R (lift r).
Proof. intros self; apply R_refl. Qed.

Lemma preserves_get : preserves R get.
Proof. intros self; apply R_refl. Qed.

Lemma preserves_bind {A B : Type} (c : M A) (k : A -> M B) :
  preserves R c -> (forall a, preserves R (k a)) -> preserves R (bind c k).
Proof.
  intros Hc Hk self. unfold bind.
  specialize (Hc self). destruct (c self) as [self' [a|e]]; simpl in *.
  - eapply R_trans; [exact Hc | apply Hk].
  - exact Hc.
Qed.

End Preserves.

(** The computation never assigns [estimators_samples_]. *)
Definition same_samples (s s' : FraudToRules) : Prop :=
  estimators_samples_ s' = estimators_samples_ s.

(** The computation leaves [rules_] alone or stores plain rule strings. *)
Definition plain_rules (s s' : FraudToRules) : Prop :=
  rules_ s' = rules_ s \/ exists rs, rules_ s' = Some (map Plain rs).

Lemma same_samples_refl s : same_samples s s.
Proof. reflexivity. Qed.

Lemma same_samples_trans s1 s2 s3 :
  same_samples s1 s2 -> same_samples s2 s3 -> same_samples s1 s3.
Proof. unfold same_samples; congruence. Qed.

Lemma plain_rules_refl s : plain_rules s s.
Proof. left; reflexivity. Qed.

Lemma plain_rules_trans s1 s2 s3 :
  plain_rules s1 s2 -> plain_rules s2 s3 -> plain_rules s1 s3.
Proof.
  unfold plain_rules. intros [H12 | [rs H12]] [H23 | [rs' H23]].
  - left; congruence.
  - right; eauto.
  - right; exists rs; congruence.
  - right; eauto.
Qed.

Lemma same_samples_modify (f : FraudToRules -> FraudToRules) :
  (forall self, estimators_samples_ (f self) = estimators_samples_ self) ->
  preserves same_samples (modify f).
Proof. intros Hf self; apply Hf. Qed.

Lemma plain_rules_modify_other (f : FraudToRules -> FraudToRules) :
  (forall self, rules_ (f self) = rules_ self) ->
  preserves plain_rules (modify f).
Proof. intros Hf self; left; apply Hf. Qed.

Lemma plain_rules_set_rules_ (rs : list string) :
  preserves plain_rules (modify (set_rules_ (Some (map Plain rs)))).
Proof. intros self; right; exists rs; reflexivity. Qed.

Create HintDb assigns.
#[local] Hint Resolve same_samples_refl same_samples_trans
  plain_rules_refl plain_rules_trans : assigns.
#[local] Hint Resolve preserves_ret preserves_lift preserves_get
  preserves_bind plain_rules_set_rules_ : assigns.
#[local] Hint Extern 1 (preserves same_samples (modify _)) =>
  (apply same_samples_modify; intros ?; reflexivity) : assigns.
#[local] Hint Extern 2 (preserves plain_rules (modify _)) =>
  (apply plain_rules_modify_other; intros ?; reflexivity) : assigns.
#[local] Hint Extern 1 (preserves plain_rules (modify (set_rules_ (Some [])))) =>
  (apply (plain_rules_set_rules_ [])) : assigns.

(** Inversion of a successful sequence. *)
Lemma bind_Ok {A B : Type} (c : M A) (k : A -> M B) self self' b :
  bind c k self = (self', Ok b) ->
  exists self1 a, c self = (self1, Ok a) /\ k a self1 = (self', Ok b).
Proof.
  unfold bind. destruct (c self) as [self1 [a|e]]; intros H.
  - eauto.
  - inversion H.
Qed.

(** ** Sorting *)

(** Sorting rule strings by [-x[1]] raises as soon as there is one. *)
Lemma sorted_neg_second_Ok (l l' : list string) :
  sorted_by_key neg_second l = Ok l' -> l = [] /\ l' = [].
Proof.
  destruct l as [|r l]; unfold sorted_by_key; simpl.
  - intros H; inversion H; auto.
  - unfold neg_second. destruct (String.get 1 r); simpl; discriminate.
Qed.

Lemma sorted_neg_second_cons (r : string) (l : list string) :
  exists e, sorted_by_key neg_second (r :: l) = Err e
            /\ (class_of e = IndexError \/ class_of e = TypeError).
Proof.
  unfold sorted_by_key, neg_second; simpl.
  destruct (String.get 1 r); simpl; eauto.
Qed.

(** ** [fit], [predict] and [decision_function] *)

Ltac unfold_fit := unfold fit.
Ltac unfold_fit_from_split := unfold fit_from_split.
Ltac unfold_fit_all := unfold fit, fit_from_split.
Ltac unfold_predict := unfold predict.
Ltac unfold_decision_function := unfold decision_function.

Section EstimatorFacts.

Variable str_of_float : float -> string.
Variable recursion_limit : nat.
Variable check_X_y : ndarray -> list Z -> result (ndarray * list Z).
Variable check_array : ndarray -> result ndarray.
Variable shuffle : list nat -> list nat.
Variable tree_fit :
  nat -> pyval -> option Z -> pyval -> ndarray -> list Z -> result Classifier.
Variable pandas_DataFrame : ndarray -> option (list string) -> result DataFrame.
Variable query : DataFrame -> string -> result DataFrame.

(** What the libraries guarantee. *)

(** A shuffle permutes its argument. *)
Hypothesis shuffle_perm : forall l, Permutation l (shuffle l).

(** Validated inputs keep their rows and have one label per row. *)
Hypothesis check_X_y_consistent : forall X y X' y',
  check_X_y X y = Ok (X', y') ->
  shape0 X' = shape0 X /\ List.length y' = shape0 X'.

(** The tree learner rejects labels whose number is not the number of rows. *)
Hypothesis tree_fit_consistent : forall i mf md mss X y,
  List.length y <> shape0 X -> exists e, tree_fit i mf md mss X y = Err e.

Notation fit_trees :=
  (fit_trees str_of_float recursion_limit tree_fit).
Notation fit_from_split :=
  (fit_from_split str_of_float recursion_limit tree_fit pandas_DataFrame query).
Notation fit :=
  (fit str_of_float recursion_limit check_X_y shuffle tree_fit
       pandas_DataFrame query).
Notation decision_function := (decision_function pandas_DataFrame query).
Notation predict := (predict check_array pandas_DataFrame query).
Notation reachable :=
  (reachable str_of_float recursion_limit check_X_y shuffle tree_fit
             pandas_DataFrame query).

(** *** The split *)

Lemma take_rows_perm (X : ndarray) (ind : list nat) :
  Permutation (seq 0 (shape0 X)) ind ->
  exists X', take_rows X ind = Ok X'
             /\ shape0 X' = shape0 X /\ ncols X' = ncols X.
Proof.
  intros HP. unfold take_rows.
  destruct (mapM_total (fun i => py_index (rows X) (Z.of_nat i)) (l := ind))
    as [rs Hrs].
  - rewrite Forall_forall. intros i Hi.
    assert (Hlt : (i < shape0 X)%nat).
    { apply Permutation_sym in HP.
      apply (Permutation_in _ HP) in Hi. apply in_seq in Hi. lia. }
    unfold shape0 in Hlt.
    destruct (nth_error (rows X) i) as [r|] eqn:Hn.
    + exists r. apply py_index_Ok. cbv zeta.
      assert (Hi0 : (Z.of_nat i <? 0) = false) by (apply Z.ltb_ge; lia).
      rewrite Hi0, Nat2Z.id. split; [lia | exact Hn].
    + apply nth_error_None in Hn. lia.
  - rewrite Hrs. simpl. eexists; split; [reflexivity|]. split; [|reflexivity].
    unfold shape0; simpl. rewrite (mapM_length _ _ Hrs).
    rewrite <- (Permutation_length HP). apply length_seq.
Qed.

Lemma shuffled_rows (X : ndarray) :
  exists X', take_rows X (shuffle (range (Z.of_nat (shape0 X)))) = Ok X'
             /\ shape0 X' = shape0 X /\ ncols X' = ncols X.
Proof.
  apply take_rows_perm. unfold range. rewrite Nat2Z.id. apply shuffle_perm.
Qed.

(** *** What [fit] assigns *)

Lemma fit_trees_preserves (R : FraudToRules -> FraudToRules -> Prop)
    X_train y its ests acc :
  (forall self, R self self) ->
  (forall s1 s2 s3, R s1 s2 -> R s2 s3 -> R s1 s3) ->
  (forall v, preserves R (modify (set_estimators_ v))) ->
  (forall rs, preserves R (modify (set_rules_ (Some (map Plain rs))))) ->
  preserves R (fit_trees X_train y its ests acc).
Proof.
  intros Hrefl Htrans He Hr.
  revert ests acc; induction its as [|i its IH]; intros ests acc; simpl.
  - apply preserves_ret; assumption.
  - repeat (first [ apply IH | apply He | apply Hr
                  | apply preserves_get; assumption
                  | apply preserves_lift; assumption
                  | apply preserves_bind; [assumption | | intros ?] ]).
Qed.

Lemma fit_preserves (R : FraudToRules -> FraudToRules -> Prop) X y :
  (forall self, R self self) ->
  (forall s1 s2 s3, R s1 s2 -> R s2 s3 -> R s1 s3) ->
  (forall v, preserves R (modify (set_estimators_ v))) ->
  (forall v, preserves R (modify (set_max_samples_ v))) ->
  (forall v, preserves R (modify (set_rules v))) ->
  (forall rs, preserves R (modify (set_rules_ (Some (map Plain rs))))) ->
  preserves R (fit X y).
Proof.
  intros Hrefl Htrans He Hm Hp Hr.
  pose proof (fun X_train y its ests acc =>
                @fit_trees_preserves R X_train y its ests acc
                                     Hrefl Htrans He Hr) as Ht.
  unfold_fit_all.
  repeat (first [ apply Ht | apply He | apply Hm | apply Hp | apply Hr
                | apply (Hr [])
                | apply preserves_get; assumption
                | apply preserves_lift; assumption
                | apply preserves_bind; [assumption | | intros ?]
                | match goal with |- preserves _ (match ?x with _ => _ end) =>
                    destruct x end ]).
Qed.

Lemma fit_same_samples X y : preserves same_samples (fit X y).
Proof.
  apply fit_preserves;
    [exact same_samples_refl | exact same_samples_trans | ..];
    auto with assigns.
Qed.

Lemma fit_plain_rules X y : preserves plain_rules (fit X y).
Proof.
  apply fit_preserves;
    [exact plain_rules_refl | exact plain_rules_trans | ..];
    auto with assigns.
Qed.

Lemma reachable_not_fitted self :
  reachable self -> estimators_samples_ self = None.
Proof.
  induction 1 as [|self X y _ IH].
  - reflexivity.
  - rewrite (fit_same_samples X y self). exact IH.
Qed.

(** *** Calls on an estimator that was never fitted *)

(** C6: on an estimator that has only been constructed, [predict] raises
    [NotFittedError]; [decision_function] has no fitted-state check and
    raises [AttributeError] on its first statement, the read of [rules_]. *)
Theorem unfitted_predict_and_decision_function
    n names ms mf md mss bs nj rs vb (X : ndarray) :
  let self := __init__ n names ms mf md mss bs nj rs vb in
  (exists msg, predict self X = Err (Raise NotFittedError msg))
  /\ (exists msg, decision_function self X = Err (Raise AttributeError msg)).
Proof.
  cbv zeta. split; eexists; reflexivity.
Qed.

(** C9: [fit] never assigns [estimators_samples_], which the fitted-state
    check of [predict] requires; so on every estimator a program can have
    built by constructing it and calling [fit] any number of times,
    [predict] raises [NotFittedError]. *)
Theorem predict_always_not_fitted (self : FraudToRules) (X : ndarray) :
  reachable self ->
  exists msg, predict self X = Err (Raise NotFittedError msg).
Proof.
  intros Hreach. apply reachable_not_fitted in Hreach.
  unfold_predict; unfold check_is_fitted.
  assert (Hattr : hasattr self "estimators_samples_" = false).
  { unfold hasattr; simpl. rewrite Hreach. reflexivity. }
  cbn [forallb]. rewrite Hattr.
  destruct (hasattr self "rules_"), (hasattr self "estimators_");
    simpl; eexists; reflexivity.
Qed.

(** *** Validation of [max_samples] *)

(** C5: when [max_samples] is a float that is not in (0, 1] (a NaN
    included), [fit] raises and assigns nothing: the estimator is left as
    it was; and whenever the input data pass validation the exception is
    the [ValueError] of the [max_samples] check. *)
Theorem fit_rejects_max_samples_out_of_range
    (self : FraudToRules) (X : ndarray) (y : list Z) (f : float) :
  max_samples self = PyFloat f ->
  ((0 <? f)%float && (f <=? 1)%float) = false ->
  (exists e, fit X y self = (self, Err e))
  /\ (forall X' y', check_X_y X y = Ok (X', y') ->
      fit X y self
      = (self, Err (Raise ValueError "max_samples must be in (0, 1], got %r"))).
Proof.
  intros Hms Hrange.
  assert (Hgo : forall X' y', check_X_y X y = Ok (X', y') ->
            fit X y self
            = (self, Err (Raise ValueError
                            "max_samples must be in (0, 1], got %r"))).
  { intros X' y' Hc.
    unfold_fit; unfold bind, lift. rewrite Hc.
    destruct (shuffled_rows X') as (Xp & Hp & _). rewrite Hp.
    unfold_fit_from_split; unfold bind, get, lift, resolve_max_samples.
    rewrite Hms, Hrange. reflexivity. }
  split; [|exact Hgo].
  destruct (check_X_y X y) as [[X' y']|e] eqn:Hc.
  - eexists; eapply Hgo; reflexivity.
  - exists e. unfold_fit; unfold bind, lift. rewrite Hc. reflexivity.
Qed.

(** *** The final sort *)

Ltac bind_step H :=
  let s := fresh "self" in
  let a := fresh "a" in
  let Hc := fresh "Hc" in
  apply bind_Ok in H; destruct H as (s & a & Hc & H);
  try (unfold lift, get, modify in Hc; inversion Hc; subst; clear Hc).

(** C4: [fit] pairs each rule with its query result in [self.rules] and
    then sorts the plain rule strings of [rules_] with the key [-x[1]],
    which raises on the first rule.  Hence whatever [fit] stores in
    [rules_] is a list of plain strings, never of weighted rules, and a call
    of [fit] that returns leaves [rules_] empty. *)
Theorem fit_never_ranks (X : ndarray) (y : list Z) (self : FraudToRules) :
  plain_rules self (fst (fit X y self))
  /\ (snd (fit X y self) = Ok tt -> rules_ (fst (fit X y self)) = Some []).
Proof.
  split; [apply fit_plain_rules|].
  destruct (fit X y self) as [self' r] eqn:H. simpl. intros Hr; subst r.
  unfold fit in H.
  bind_step H. destruct a as [X' y'].
  bind_step H.
  unfold fit_from_split in H.
  do 10 bind_step H.
  unfold modify in H. inversion H; subst; clear H.
  match goal with
  | Hs : sorted_by_key neg_second _ = Ok _ |- _ =>
      apply sorted_neg_second_Ok in Hs; destruct Hs as [_ Hs]; rewrite Hs
  end.
  reflexivity.
Qed.

(** *** The rows handed to the tree learner *)

Lemma fit_trees_mismatch X_train y its ests acc self :
  List.length y <> shape0 X_train ->
  its <> [] ->
  exists self' e, fit_trees X_train y its ests acc self = (self', Err e).
Proof.
  intros Hlen Hits. destruct its as [|i its]; [congruence|].
  simpl. unfold bind, get, lift.
  destruct (@tree_fit_consistent i (max_features self) (max_depth self)
              (min_samples_split self) X_train y Hlen) as [e He].
  rewrite He. eauto.
Qed.

(** C10, amended: [fit] trains on the rows left after the holdout is taken
    but with the whole label vector.  With at least 10 rows and at least
    one tree requested ([n_estimators >= 1]), [fit] raises; and once the
    inputs pass validation and [max_samples] resolves, what it raises is the
    error of the first call of the learner, which is handed the
    [n - n/10] training rows together with the [n] labels: two different
    lengths.  No tree has been stored. *)
Theorem fit_fails_on_ten_rows (self : FraudToRules) (X : ndarray) (y : list Z) :
  (10 <= shape0 X)%nat ->
  1 <= n_estimators self ->
  (exists e, snd (fit X y self) = Err e)
  /\ (forall X' y' k,
        check_X_y X y = Ok (X', y') ->
        resolve_max_samples self (shape0 X' - shape0 X' / 10) = Ok k ->
        exists X_perm e,
          take_rows X' (shuffle (range (Z.of_nat (shape0 X')))) = Ok X_perm
          /\ let X_train := rows_from X_perm (shape0 X' / 10) in
             shape0 X_train = (shape0 X' - shape0 X' / 10)%nat
             /\ List.length y' = shape0 X'
             /\ (shape0 X_train < List.length y')%nat
             /\ tree_fit 0 (max_features self) (max_depth self)
                         (min_samples_split self) X_train y' = Err e
             /\ fit X y self
                = (set_estimators_ (Some [])
                     (set_rules_ (Some [])
                        (set_max_samples_ (Some k) self)), Err e)).
Proof.
  intros Hrows Hn.
  assert (Hs : forall Xp k, shape0 (rows_from Xp k) = (shape0 Xp - k)%nat)
    by (intros Xp k0; unfold shape0, rows_from; simpl; apply length_skipn).
  assert (Hits : range (n_estimators self)
                 = 0%nat :: seq 1 (Z.to_nat (n_estimators self) - 1)).
  { unfold range.
    destruct (Z.to_nat (n_estimators self)) as [|k'] eqn:Hk; [lia|].
    simpl. rewrite Nat.sub_0_r. reflexivity. }
  assert (Hsplit : forall X' y', check_X_y X y = Ok (X', y') ->
            exists X_perm,
              take_rows X' (shuffle (range (Z.of_nat (shape0 X')))) = Ok X_perm
              /\ shape0 (rows_from X_perm (shape0 X' / 10))
                 = (shape0 X' - shape0 X' / 10)%nat
              /\ List.length y' = shape0 X'
              /\ (shape0 (rows_from X_perm (shape0 X' / 10))
                  < List.length y')%nat).
  { intros X' y' Hc.
    destruct (@check_X_y_consistent _ _ _ _ Hc) as [HX Hy].
    destruct (shuffled_rows X') as (Xp & Hp & Hshape & _).
    exists Xp. split; [exact Hp|].
    rewrite Hs, Hshape, Hy, HX. split; [reflexivity|]. split; [reflexivity|].
    assert (1 <= shape0 X / 10)%nat
      by (apply (Nat.div_le_lower_bound (shape0 X) 10 1); lia).
    assert (shape0 X / 10 <= shape0 X)%nat
      by (apply Nat.Div0.div_le_upper_bound; lia).
    lia. }
  split.
  - unfold_fit; unfold bind, lift.
    destruct (check_X_y X y) as [[X' y']|e] eqn:Hc; [|simpl; eauto].
    destruct (Hsplit X' y' eq_refl) as (Xp & Hp & _ & _ & Hlt).
    rewrite Hp.
    unfold_fit_from_split; unfold bind, get, lift, modify.
    destruct (resolve_max_samples self _) as [k|e]; [|simpl; eauto].
    assert (Hlen : List.length y' <> shape0 (rows_from Xp (shape0 X' / 10)))
      by lia.
    assert (Hne : range (n_estimators self) <> [])
      by (rewrite Hits; discriminate).
    match goal with
    | |- context [fit_trees ?Xt ?yy ?its ?ests ?acc ?s] =>
        destruct (@fit_trees_mismatch Xt yy its ests acc s Hlen Hne)
          as (s' & e & He)
    end.
    rewrite He. simpl. eauto.
  - intros X' y' k Hc Hk.
    destruct (Hsplit X' y' Hc) as (Xp & Hp & Hshape & Hy & Hlt).
    assert (Hlen : List.length y' <> shape0 (rows_from Xp (shape0 X' / 10)))
      by lia.
    destruct (@tree_fit_consistent 0%nat (max_features self) (max_depth self)
                (min_samples_split self) _ _ Hlen) as [e He].
    exists Xp, e. split; [exact Hp|]. cbv zeta.
    split; [exact Hshape|]. split; [exact Hy|]. split; [exact Hlt|].
    split; [exact He|].
    unfold_fit; unfold bind, lift. rewrite Hc, Hp.
    unfold_fit_from_split; unfold bind, get, lift, modify.
    rewrite Hshape, Hk, Hits.
    set (t := (shape0 X' / 10)%nat) in *.
    simpl. unfold bind, get, lift. simpl. rewrite He. reflexivity.
Qed.

(** *** An empty holdout *)

(** C8, amended: [fit] has no check on the size of the held-out partition.
    With fewer than 10 validated rows the holdout is empty and [fit] goes
    on as for any other split, training on all the shuffled rows and
    ranking against the empty frame; when no tree is requested
    ([n_estimators <= 0]), [max_samples] is valid and the empty frame can be
    built, it returns normally with an empty rule list. *)
Theorem fit_accepts_empty_holdout
    (self : FraudToRules) (X X' : ndarray) (y y' : list Z) :
  check_X_y X y = Ok (X', y') ->
  (shape0 X' < 10)%nat ->
  exists X_perm,
    take_rows X' (shuffle (range (Z.of_nat (shape0 X')))) = Ok X_perm
    /\ shape0 X_perm = shape0 X'
    /\ fit X y self = fit_from_split (mkArray (ncols X_perm) []) X_perm y' self
    /\ (forall k df,
          n_estimators self <= 0 ->
          resolve_max_samples self (shape0 X') = Ok k ->
          pandas_DataFrame (mkArray (ncols X_perm) []) (feature_names self)
          = Ok df ->
          fit X y self
          = (set_rules_ (Some [])
               (set_rules (Some [])
                  (set_estimators_ (Some [])
                     (set_rules_ (Some [])
                        (set_max_samples_ (Some k) self)))), Ok tt)).
Proof.
  intros Hc Hsmall.
  destruct (shuffled_rows X') as (Xp & Hp & Hshape & _).
  exists Xp. split; [exact Hp|]. split; [exact Hshape|].
  assert (Hfit : fit X y self
                 = fit_from_split (mkArray (ncols Xp) []) Xp y' self).
  { unfold_fit; unfold bind, lift. rewrite Hc, Hp.
    rewrite (Nat.div_small _ _ Hsmall).
    unfold rows_to, rows_from; simpl. destruct Xp; reflexivity. }
  split; [exact Hfit|].
  intros k df Hn Hk Hdf. rewrite Hfit.
  unfold_fit_from_split; unfold bind, get, lift, modify.
  rewrite Hshape, Hk.
  unfold range. replace (Z.to_nat (n_estimators self)) with O by lia.
  simpl. unfold ret. rewrite Hdf. reflexivity.
Qed.

(** *** Scores *)

Lemma nth_error_combine_seq {A : Type} (l : list A) (a i : nat) (x : A) :
  nth_error l i = Some x ->
  nth_error (combine (seq a (List.length l)) l) i = Some ((a + i)%nat, x).
Proof.
  revert a i; induction l as [|h l IH]; intros a i Hi.
  - destruct i; discriminate.
  - destruct i as [|i]; simpl in *.
    + inversion Hi; subst. rewrite Nat.add_0_r. reflexivity.
    + rewrite (IH (S a) i Hi). f_equal. f_equal. lia.
Qed.

Lemma iadd_at_spec (scores : list float) (idx : list nat) (w : float) :
  Forall (fun i => (i < List.length scores)%nat) idx ->
  exists scores',
    iadd_at scores idx w = Ok scores'
    /\ List.length scores' = List.length scores
    /\ forall i s, nth_error scores i = Some s ->
         nth_error scores' i
         = Some (if mem_nat i idx then (s + w)%float else s).
Proof.
  intros Hidx. unfold iadd_at.
  destruct (mapM_total (fun i => py_index scores (Z.of_nat i)) (l := idx))
    as [vals Hvals].
  - eapply Forall_impl; [|exact Hidx]. intros i Hi; simpl in Hi.
    destruct (nth_error scores i) as [s|] eqn:Hn.
    + exists s. apply py_index_Ok. cbv zeta.
      assert (Hi0 : (Z.of_nat i <? 0) = false) by (apply Z.ltb_ge; lia).
      rewrite Hi0, Nat2Z.id. split; [lia | exact Hn].
    + apply nth_error_None in Hn. lia.
  - rewrite Hvals. simpl. eexists; split; [reflexivity|]. split.
    + rewrite length_map, length_combine, length_seq. apply Nat.min_id.
    + intros i s Hs. rewrite nth_error_map.
      rewrite (nth_error_combine_seq _ 0 _ Hs). reflexivity.
Qed.

(** The score of row [i] after the loop over [selected], started at [s]. *)
Lemma score_loop (df : DataFrame) (n : nat) (selected : list (string * float)) :
  (forall r w, In (r, w) selected ->
     exists q, query df r = Ok q /\ Forall (fun i => (i < n)%nat) (index q)) ->
  forall scores, List.length scores = n ->
  exists scores',
    foldM (score_rule query df) (weighted_rules selected) scores = Ok scores'
    /\ List.length scores' = n
    /\ forall i s, nth_error scores i = Some s ->
         nth_error scores' i
         = Some (fold_left PrimFloat.add
                   (matched_weights query df i selected) s).
Proof.
  induction selected as [|[r w] selected IH]; intros Hq scores Hlen.
  - exists scores. simpl. auto.
  - destruct (Hq r w (or_introl eq_refl)) as (q & Hqr & Hin).
    destruct (@iadd_at_spec scores (index q) w) as (s1 & Hs1 & Hl1 & Hn1).
    { rewrite Hlen. exact Hin. }
    destruct (IH (fun r' w' H => Hq r' w' (or_intror H)) s1)
      as (s2 & Hs2 & Hl2 & Hn2); [congruence|].
    exists s2. split; [|split; [exact Hl2|]].
    + cbn [weighted_rules map foldM score_rule fst snd].
      rewrite Hqr. cbn [rbind]. rewrite Hs1. cbn [rbind]. exact Hs2.
    + intros i s Hs. rewrite (Hn2 i _ (Hn1 i s Hs)).
      unfold matched_weights, satisfies. cbn [filter fst]. rewrite Hqr.
      destruct (mem_nat i (index q)); reflexivity.
Qed.

(** C2: on an estimator whose [rules_] is a list of weighted rules,
    [decision_function] keeps the first [n_estimators] entries of the list
    and returns one score per record: the negated float sum of the weights
    of the kept rules whose query result contains the record, added in the
    order of the list; a record that satisfies none of them scores [-0.0],
    which equals 0. *)
Theorem decision_function_scores
    (self : FraudToRules) (X : ndarray) (ranked : list (string * float))
    (df : DataFrame) :
  rules_ self = Some (weighted_rules ranked) ->
  0 <= n_estimators self ->
  pandas_DataFrame X (feature_names self) = Ok df ->
  let selected := firstn (Z.to_nat (n_estimators self)) ranked in
  (forall r w, In (r, w) selected ->
     exists q, query df r = Ok q
               /\ Forall (fun i => (i < shape0 X)%nat) (index q)) ->
  exists scores,
    decision_function self X = Ok scores
    /\ List.length scores = shape0 X
    /\ (forall i, (i < shape0 X)%nat ->
          nth_error scores i
          = Some (- weight_sum (matched_weights query df i selected))%float)
    /\ (forall i, (i < shape0 X)%nat ->
          matched_weights query df i selected = [] ->
          exists s, nth_error scores i = Some s /\ (s =? 0)%float = true).
Proof.
  intros Hrules Hn Hdf selected Hq.
  destruct (@score_loop df (shape0 X) selected Hq (repeat 0%float (shape0 X)))
    as (s' & Hs' & Hl' & Hn'); [apply repeat_length|].
  assert (Hscore : forall i, (i < shape0 X)%nat ->
            nth_error (map PrimFloat.opp s') i
            = Some (- weight_sum (matched_weights query df i selected))%float).
  { intros i Hi. rewrite nth_error_map.
    rewrite (Hn' i 0%float); [reflexivity|].
    rewrite nth_error_repeat by exact Hi. reflexivity. }
  exists (map PrimFloat.opp s'). split; [|split; [|split]].
  - unfold_decision_function. rewrite Hrules.
    unfold py_slice_to.
    assert (H0 : (n_estimators self <? 0) = false) by (apply Z.ltb_ge; lia).
    rewrite H0, Hdf. cbn [rbind].
    unfold weighted_rules. rewrite firstn_map.
    fold (weighted_rules (firstn (Z.to_nat (n_estimators self)) ranked)).
    fold selected. rewrite Hs'. reflexivity.
  - rewrite length_map. exact Hl'.
  - exact Hscore.
  - intros i Hi Hnone. eexists. split; [apply Hscore; exact Hi|].
    rewrite Hnone. reflexivity.
Qed.

(** C3: [predict] labels each record from its [decision_function] value as
    claimed, [+1] if the value equals 0 and [-1] otherwise, but only behind
    its fitted-state check: it returns exactly when that check and the
    input validation pass and [decision_function] returns.  The check looks
    for [estimators_samples_], which [fit] never assigns; so on every model
    obtained from the constructor by calls of [fit], [predict] returns no
    label at all: it raises [NotFittedError]. *)
Theorem predict_labels_behind_fitted_check (self : FraudToRules) (X : ndarray) :
  (forall labels,
     predict self X = Ok labels <->
     exists X' scores,
       check_is_fitted self
         ["rules_"; "estimators_"; "estimators_samples_"; "max_samples_"]
       = Ok tt
       /\ check_array X = Ok X'
       /\ decision_function self X' = Ok scores
       /\ labels = map (fun s => if (s =? 0)%float then 1 else -1) scores)
  /\ (reachable self ->
      (forall labels, predict self X <> Ok labels)
      /\ exists msg, predict self X = Err (Raise NotFittedError msg)).
Proof.
  assert (Hlabel : forall scores,
            map label_of scores
            = map (fun s => if (s =? 0)%float then 1 else -1) scores).
  { intros scores. apply map_ext. intros s. unfold label_of.
    destruct (s =? 0)%float; reflexivity. }
  split.
  - intros labels. unfold_predict. split.
    + destruct (check_is_fitted self _) as [[]|e]; cbn [rbind];
        [|discriminate].
      destruct (check_array X) as [X'|e]; cbn [rbind]; [|discriminate].
      destruct (decision_function self X') as [scores|e] eqn:Hdf;
        cbn [rbind]; [|discriminate].
      intros H; inversion H; subst; clear H.
      exists X', scores.
      split; [reflexivity|]. split; [reflexivity|]. split; [exact Hdf|].
      apply Hlabel.
    + intros (X' & scores & Hfit & Hca & Hdf & ->).
      rewrite Hfit. cbn [rbind]. rewrite Hca. cbn [rbind].
      rewrite Hdf. cbn [rbind]. rewrite Hlabel. reflexivity.
  - intros Hreach. apply reachable_not_fitted in Hreach.
    assert (Hraise : exists msg,
              predict self X = Err (Raise NotFittedError msg)).
    { unfold_predict; unfold check_is_fitted.
      assert (Hattr : hasattr self "estimators_samples_" = false).
      { unfold hasattr; simpl. rewrite Hreach. reflexivity. }
      cbn [forallb]. rewrite Hattr.
      destruct (hasattr self "rules_"), (hasattr self "estimators_");
        simpl; eexists; reflexivity. }
    split; [|exact Hraise].
    intros labels Hok. destruct Hraise as [msg Hmsg].
    rewrite Hmsg in Hok. discriminate Hok.
Qed.

End EstimatorFacts.

(** ** The empty rule *)

(** C7: a tree whose root is a leaf yields the single rule [""], the join of
    no comparison; [decision_function] hands that empty expression to
    [query] as it is, so when the evaluator rejects an empty expression the
    rule matches no row at all: the call raises. *)
Theorem empty_rule_is_empty_query :
  (forall str_of_float names depth,
     _tree_to_rules str_of_float (S depth)
       (mkClassifier Reference.leaf_tree) names = Ok [EmptyString])
  /\ (forall pandas_DataFrame query self X w rest df e,
        rules_ self = Some (Weighted EmptyString w :: rest) ->
        1 <= n_estimators self ->
        pandas_DataFrame X (feature_names self) = Ok df ->
        query df EmptyString = Err e ->
        decision_function pandas_DataFrame query self X = Err e).
Proof.
  split.
  - intros; reflexivity.
  - intros pandas_DataFrame query self X w rest df e Hr Hn Hdf Hq.
    unfold decision_function. rewrite Hr. unfold py_slice_to.
    assert (H0 : (n_estimators self <? 0) = false) by (apply Z.ltb_ge; lia).
    rewrite H0, Hdf. cbn [rbind].
    destruct (Z.to_nat (n_estimators self)) as [|k] eqn:Hk; [lia|].
    cbn [firstn foldM score_rule]. rewrite Hq. reflexivity.
Qed.

(** ** The reference collaborators meet the libraries' guarantees *)

Lemma reference_shuffle_perm (l : list nat) :
  Permutation l (Reference.shuffle l).
Proof. apply Permutation_rev. Qed.

Lemma reference_check_X_y_consistent X y X' y' :
  Reference.check_X_y X y = Ok (X', y') ->
  shape0 X' = shape0 X /\ List.length y' = shape0 X'.
Proof.
  unfold Reference.check_X_y.
  destruct (shape0 X =? 0)%nat; [discriminate|].
  destruct (List.length y =? shape0 X)%nat eqn:Hlen; [|discriminate].
  intros H; inversion H; subst. apply Nat.eqb_eq in Hlen. auto.
Qed.

Lemma reference_tree_fit_consistent i mf md mss X y :
  List.length y <> shape0 X ->
  exists e, Reference.tree_fit i mf md mss X y = Err e.
Proof.
  intros Hlen. unfold Reference.tree_fit.
  apply Nat.eqb_neq in Hlen. rewrite Hlen. simpl. eauto.
Qed.

(** ** The theorems at concrete inputs *)

(** The walk of the two-split tree: three leaves, three rules. *)
Lemma tree_to_rules_one_rule_per_leaf_witness :
  exists rules,
    _tree_to_rules Reference.str_of_float 3
      (mkClassifier Scenario.two_split_tree) ["age"; "amount"] = Ok rules
    /\ rules = map (join " and ")
                   (paths Reference.str_of_float Scenario.two_split_dtree)
    /\ List.length rules = leaves Scenario.two_split_dtree.
Proof.
  apply tree_to_rules_one_rule_per_leaf.
  - eapply rep_node with (f := 0) (cl := 1) (cr := 2);
      [reflexivity | discriminate | reflexivity | reflexivity
      | reflexivity | reflexivity | | ].
    + apply rep_leaf; reflexivity.
    + eapply rep_node with (f := 1) (cl := 3) (cr := 4);
        [reflexivity | discriminate | reflexivity | reflexivity
        | reflexivity | reflexivity | | ];
        apply rep_leaf; reflexivity.
  - unfold features_named; simpl.
    repeat (apply Forall_cons;
            [first [left; reflexivity | right; eexists; reflexivity]|]).
    apply Forall_nil.
  - simpl; lia.
Defined.

(** The rules the walk returns on that tree. *)
Example two_split_rules :
  _tree_to_rules Reference.str_of_float 3
    (mkClassifier Scenario.two_split_tree) ["age"; "amount"]
  = Ok ["age <= 30.5"; "age > 30.5 and amount <= 1000.0";
        "age > 30.5 and amount > 1000.0"].
Proof. reflexivity. Qed.

(** The scoring scenario: two rules of weights 0.8 and 0.5, both kept. *)
Lemma decision_function_scores_witness :
  exists scores,
    decision_function Reference.pandas_DataFrame Scenario.query
      Scenario.estimator Scenario.records = Ok scores
    /\ List.length scores = 3%nat
    /\ nth_error scores 0 = Some (- (0 + 0.8 + 0.5))%float
    /\ (exists s, nth_error scores 1 = Some s /\ (s =? 0)%float = true).
Proof.
  destruct (@decision_function_scores Reference.pandas_DataFrame
              Scenario.query Scenario.estimator Scenario.records
              Scenario.ranked
              (mkFrame [0; 1; 2]%nat Scenario.records))
    as (scores & Hdf & Hlen & Hsum & Hzero).
  - reflexivity.
  - vm_compute; discriminate.
  - reflexivity.
  - intros r w Hin. simpl in Hin.
    destruct Hin as [Hin | [Hin | []]]; inversion Hin; subst;
      eexists; (split; [reflexivity|]); simpl;
      repeat constructor.
  - exists scores. split; [exact Hdf|]. split; [exact Hlen|]. split.
    + apply (Hsum 0%nat). vm_compute; lia.
    + apply (Hzero 1%nat); [vm_compute; lia | reflexivity].
Defined.

Example scenario_scores :
  decision_function Reference.pandas_DataFrame Scenario.query
    Scenario.estimator Scenario.records
  = Ok [(-1.3)%float; (-0)%float; (-0.8)%float].
Proof. reflexivity. Qed.

(** A model on which [fit] has returned: [predict] gives no label. *)
Lemma predict_labels_behind_fitted_check_witness :
  snd (Scenario.fit Scenario.X1 [1] Scenario.no_tree) = Ok tt
  /\ (forall labels,
        predict Reference.check_array Reference.pandas_DataFrame
          (Reference.query [])
          (fst (Scenario.fit Scenario.X1 [1] Scenario.no_tree))
          Scenario.records
        <> Ok labels)
  /\ exists msg,
       predict Reference.check_array Reference.pandas_DataFrame
         (Reference.query [])
         (fst (Scenario.fit Scenario.X1 [1] Scenario.no_tree))
         Scenario.records
       = Err (Raise NotFittedError msg).
Proof.
  split; [reflexivity|].
  apply (proj2 (@predict_labels_behind_fitted_check
                  Reference.str_of_float 100 Reference.check_X_y
                  Reference.check_array Reference.shuffle Reference.tree_fit
                  Reference.pandas_DataFrame (Reference.query [])
                  (fst (Scenario.fit Scenario.X1 [1] Scenario.no_tree))
                  Scenario.records)).
  unfold Scenario.fit. apply reach_fit. apply reach_init.
Defined.

(** The labelling rule on an estimator given every attribute the check
    looks for: only the record matching no rule is [+1]. *)
Example scenario_labels :
  predict Reference.check_array Reference.pandas_DataFrame Scenario.query
    Scenario.estimator Scenario.records
  = Ok [-1; 1; -1].
Proof. reflexivity. Qed.

(** [max_samples = 1.5]: nothing is assigned. *)
Lemma fit_rejects_max_samples_out_of_range_witness :
  Scenario.fit Scenario.X2 [1; -1] Scenario.bad_max_samples
  = (Scenario.bad_max_samples,
     Err (Raise ValueError "max_samples must be in (0, 1], got %r")).
Proof.
  apply (@fit_rejects_max_samples_out_of_range
           Reference.str_of_float 100 Reference.check_X_y Reference.shuffle
           Reference.tree_fit Reference.pandas_DataFrame (Reference.query [])
           reference_shuffle_perm
           Scenario.bad_max_samples Scenario.X2 [1; -1] 1.5%float
           eq_refl eq_refl)
    with (X' := Scenario.X2) (y' := [1; -1]).
  reflexivity.
Defined.

(** After a call of [fit] that returned, [predict] still raises. *)
Lemma predict_always_not_fitted_witness :
  snd (Scenario.fit Scenario.X1 [1] Scenario.no_tree) = Ok tt
  /\ exists msg,
       predict Reference.check_array Reference.pandas_DataFrame
         (Reference.query [])
         (fst (Scenario.fit Scenario.X1 [1] Scenario.no_tree)) Scenario.X1
       = Err (Raise NotFittedError msg).
Proof.
  split; [reflexivity|].
  apply (@predict_always_not_fitted Reference.str_of_float 100
           Reference.check_X_y Reference.check_array Reference.shuffle
           Reference.tree_fit Reference.pandas_DataFrame (Reference.query [])).
  unfold Scenario.fit. apply reach_fit. apply reach_init.
Defined.

(** A call of [fit] that returns, and the empty list it leaves. *)
Lemma fit_never_ranks_witness :
  snd (Scenario.fit Scenario.X1 [1] Scenario.no_tree) = Ok tt
  /\ rules_ (fst (Scenario.fit Scenario.X1 [1] Scenario.no_tree)) = Some [].
Proof.
  split; [reflexivity|].
  apply (@fit_never_ranks Reference.str_of_float 100 Reference.check_X_y
           Reference.shuffle Reference.tree_fit Reference.pandas_DataFrame
           (Reference.query []) Scenario.X1 [1] Scenario.no_tree).
  reflexivity.
Defined.

(** One tree on two rows with two labels: the tree is grown, both rules are
    evaluated against the empty holdout and stored in [rules], and the sort
    raises. *)
Example fit_two_rows_raises_in_sort :
  let outcome :=
    fit Reference.str_of_float 100 Reference.check_X_y Reference.shuffle
      Reference.tree_fit Reference.pandas_DataFrame
      (Reference.query Scenario.table_x)
      Scenario.X2 [1; -1] Scenario.named in
  snd outcome = Err (Raise TypeError "bad operand type for unary -: 'str'")
  /\ rules_ (fst outcome) = Some [Plain "x <= 0.5"; Plain "x > 0.5"]
  /\ rules (fst outcome)
     = Some [("x <= 0.5", mkFrame [] (mkArray 1 []));
             ("x > 0.5", mkFrame [] (mkArray 1 []))].
Proof. cbv zeta. split; [reflexivity|]. split; reflexivity. Qed.

(** One tree on constant labels: the tree is a single leaf, its rule is
    the empty string, and the evaluator rejects it. *)
Example fit_constant_labels_raises_in_query :
  let outcome :=
    fit Reference.str_of_float 100 Reference.check_X_y Reference.shuffle
      Reference.tree_fit Reference.pandas_DataFrame
      (Reference.query Scenario.table_x)
      Scenario.X2 [1; 1] Scenario.named in
  snd outcome = Err (Raise ValueError "expr cannot be an empty string")
  /\ rules_ (fst outcome) = Some [Plain EmptyString].
Proof. cbv zeta. split; reflexivity. Qed.

(** Ten rows and one tree: the learner is given nine rows and ten labels,
    and [fit] raises the learner's error. *)
Lemma fit_fails_on_ten_rows_witness :
  exists X_perm e,
    take_rows Scenario.X10 (Reference.shuffle (range 10)) = Ok X_perm
    /\ shape0 (rows_from X_perm 1) = 9%nat
    /\ List.length Scenario.y10 = 10%nat
    /\ Reference.tree_fit 0 (PyFloat 1) None (PyInt 2)
         (rows_from X_perm 1) Scenario.y10 = Err e
    /\ snd (Scenario.fit Scenario.X10 Scenario.y10 default_estimator) = Err e.
Proof.
  assert (Hrows : (10 <= shape0 Scenario.X10)%nat) by (vm_compute; lia).
  assert (Hn : 1 <= n_estimators default_estimator)
    by (vm_compute; discriminate).
  destruct (proj2 (@fit_fails_on_ten_rows Reference.str_of_float 100
                     Reference.check_X_y Reference.shuffle Reference.tree_fit
                     Reference.pandas_DataFrame (Reference.query [])
                     reference_shuffle_perm reference_check_X_y_consistent
                     reference_tree_fit_consistent
                     default_estimator Scenario.X10 Scenario.y10 Hrows Hn)
                  Scenario.X10 Scenario.y10 9 eq_refl eq_refl)
    as (Xp & e & Hp & Hshape & Hy & _ & He & Hfit).
  exists Xp, e.
  split; [exact Hp|]. split; [exact Hshape|]. split; [exact Hy|].
  split; [exact He|].
  unfold Scenario.fit. rewrite Hfit. reflexivity.
Defined.

(** C10 as stated fails when no tree is requested: ten rows, and [fit]
    returns. *)
Lemma fit_ten_rows_no_tree_returns :
  (10 <= shape0 Scenario.X10)%nat
  /\ snd (Scenario.fit Scenario.X10 Scenario.y10 Scenario.no_tree) = Ok tt
  /\ ~ (exists e, snd (Scenario.fit Scenario.X10 Scenario.y10 Scenario.no_tree)
                  = Err e).
Proof.
  split; [vm_compute; lia|]. split; [reflexivity|].
  intros [e He]. vm_compute in He. discriminate He.
Qed.

(** One row: the holdout is empty and [fit] goes on. *)
Lemma fit_accepts_empty_holdout_witness :
  exists X_perm,
    shape0 X_perm = 1%nat
    /\ Scenario.fit Scenario.X1 [1] Scenario.no_tree
       = fit_from_split Reference.str_of_float 100 Reference.tree_fit
           Reference.pandas_DataFrame (Reference.query [])
           (mkArray (ncols X_perm) []) X_perm [1] Scenario.no_tree.
Proof.
  destruct (@fit_accepts_empty_holdout Reference.str_of_float 100
              Reference.check_X_y Reference.shuffle Reference.tree_fit
              Reference.pandas_DataFrame (Reference.query [])
              reference_shuffle_perm
              Scenario.no_tree Scenario.X1 Scenario.X1 [1] [1])
    as (Xp & _ & Hshape & Hfit & _).
  - reflexivity.
  - vm_compute; lia.
  - exists Xp. split; [exact Hshape | exact Hfit].
Defined.

(** C8 as stated fails: the holdout of a training set of one or two rows
    is empty, and [fit] does not reject it.  With no tree requested it
    returns; with one tree it grows the tree, evaluates both rules against
    the empty holdout (their results, frames without rows, are stored in
    [rules]) and raises only in the final sort. *)
Lemma fit_empty_holdout_returns :
  Nat.div (shape0 Scenario.X1) 10 = 0%nat
  /\ snd (Scenario.fit Scenario.X1 [1] Scenario.no_tree) = Ok tt
  /\ ~ (exists e, snd (Scenario.fit Scenario.X1 [1] Scenario.no_tree) = Err e)
  /\ Nat.div (shape0 Scenario.X2) 10 = 0%nat
  /\ (let outcome :=
        fit Reference.str_of_float 100 Reference.check_X_y Reference.shuffle
          Reference.tree_fit Reference.pandas_DataFrame
          (Reference.query Scenario.table_x)
          Scenario.X2 [1; -1] Scenario.named in
      snd outcome = Err (Raise TypeError "bad operand type for unary -: 'str'")
      /\ rules (fst outcome)
         = Some [("x <= 0.5", mkFrame [] (mkArray 1 []));
                 ("x > 0.5", mkFrame [] (mkArray 1 []))]).
Proof.
  split; [reflexivity|]. split; [reflexivity|]. split.
  - intros [e He]. vm_compute in He. discriminate He.
  - split; [reflexivity|]. cbv zeta. split; reflexivity.
Qed.

(** The empty rule with an evaluator that rejects the empty expression. *)
Lemma empty_rule_is_empty_query_witness :
  decision_function Reference.pandas_DataFrame Scenario.query
    (mkFraudToRules 1 (Some ["age"; "amount"]) (PyFloat 1) (PyFloat 1) None
       (PyInt 2) false 1 None 0 (Some 2)
       (Some [Weighted EmptyString 1%float]) (Some []) None None)
    Scenario.records
  = Err (Raise ValueError "expr cannot be an empty string").
Proof.
  eapply (proj2 empty_rule_is_empty_query).
  - reflexivity.
  - vm_compute; discriminate.
  - reflexivity.
  - reflexivity.
Defined.

(** * Further properties *)

(** ** Failing comprehensions and indexings *)

Lemma py_index_Err {A : Type} (l : list A) (i : Z) (e : exn) :
  py_index l i = Err e -> e = Raise IndexError "index out of range".
Proof.
  unfold py_index.
  destruct ((0 <=? _) && (_ <? _)); [|intros H; inversion H; reflexivity].
  destruct (nth_error _ _); intros H; inversion H; reflexivity.
Qed.

Lemma py_index_out_of_range {A : Type} (l : list A) (i : Z) :
  i < - Z.of_nat (List.length l) \/ Z.of_nat (List.length l) <= i ->
  py_index l i = Err (Raise IndexError "index out of range").
Proof.
  intros Hi. unfold py_index.
  destruct (i <? 0) eqn:Hneg.
  - apply Z.ltb_lt in Hneg.
    assert (H0 : (0 <=? Z.of_nat (List.length l) + i) = false)
      by (apply Z.leb_gt; lia).
    rewrite H0. reflexivity.
  - apply Z.ltb_ge in Hneg.
    assert (H1 : (i <? Z.of_nat (List.length l)) = false)
      by (apply Z.ltb_ge; lia).
    rewrite H1, andb_false_r. reflexivity.
Qed.

(** A comprehension raises what its first failing element raises. *)
Lemma mapM_Err {A B : Type} (f : A -> result B) (P : exn -> Prop) (l : list A) :
  (forall x e, f x = Err e -> P e) ->
  forall x e0, In x l -> f x = Err e0 ->
  exists e, mapM f l = Err e /\ P e.
Proof.
  intros HP x e0. induction l as [|a l IH]; intros Hin Hx.
  - destruct Hin.
  - simpl. destruct (f a) as [b|e] eqn:Hfa; simpl.
    + destruct Hin as [-> | Hin]; [congruence|].
      destruct (IH Hin Hx) as (e & He & HPe). rewrite He. simpl. eauto.
    + eauto.
Qed.

Section TreeWalkerErrors.

Variable str_of_float : float -> string.

(** X1: the names of all nodes are resolved before the walk starts, so one
    entry of [tree_.feature] that is neither the leaf marker nor an index
    of [feature_names] makes [_tree_to_rules] raise [IndexError], wherever
    the node is and whatever the recursion allowance. *)
Theorem tree_to_rules_bad_feature_index
    (depth : nat) (clf : Classifier) (names : list string) (i : Z) :
  In i (feature (tree_ clf)) ->
  i <> TREE_UNDEFINED ->
  i < - Z.of_nat (List.length names) \/ Z.of_nat (List.length names) <= i ->
  _tree_to_rules str_of_float depth clf names
  = Err (Raise IndexError "index out of range").
Proof.
  intros Hin Hne Hrange. unfold _tree_to_rules. cbv zeta.
  destruct (@mapM_Err _ _ (feature_name_of names)
              (fun e => e = Raise IndexError "index out of range")
              (feature (tree_ clf))) with (x := i)
              (e0 := Raise IndexError "index out of range")
    as (e & He & ->).
  - intros x e. unfold feature_name_of.
    destruct (x =? TREE_UNDEFINED); [discriminate|]. apply py_index_Err.
  - exact Hin.
  - unfold feature_name_of.
    assert (Hb : (i =? TREE_UNDEFINED) = false) by (apply Z.eqb_neq; exact Hne).
    rewrite Hb. apply py_index_out_of_range. exact Hrange.
  - rewrite He. reflexivity.
Qed.

(** The walk of a subtree that is as high as the allowance, or higher,
    runs out of nested calls. *)
Lemma recurse_too_deep (t : Tree) (names fname : list string) :
  mapM (feature_name_of names) (feature t) = Ok fname ->
  forall d node, represents t names node d ->
  forall depth base rules, (depth <= height d)%nat ->
  recurse str_of_float depth t fname node base rules
  = Err (Raise RecursionError "maximum recursion depth exceeded").
Proof.
  intros HM d node Hrep.
  induction Hrep as [node Hf
                    | node f name thr cl cr l r Hf Hne Hname Hthr Hcl Hcr Hl IHl Hr IHr];
    intros depth base rules Hd.
  - simpl in Hd. replace depth with O by lia. reflexivity.
  - destruct depth as [|depth]; [reflexivity|].
    simpl in Hd.
    destruct (py_index_mapM _ _ HM _ Hf) as [nm [Hnm Hidx]].
    unfold feature_name_of in Hnm.
    assert (Hneb : (f =? TREE_UNDEFINED) = false) by (apply Z.eqb_neq; exact Hne).
    rewrite Hneb, Hname in Hnm. inversion Hnm; subst nm; clear Hnm.
    cbn [recurse]. rewrite Hf. cbn [rbind]. rewrite Hneb. cbn [negb].
    rewrite Hidx. cbn [rbind]. rewrite Hthr. cbn [rbind].
    rewrite Hcl. cbn [rbind].
    destruct (Nat.le_gt_cases depth (height l)) as [Hdeep | Hshallow].
    + rewrite IHl by exact Hdeep. reflexivity.
    + rewrite (recurse_represents str_of_float HM Hl) by exact Hshallow.
      cbn [rbind]. rewrite Hcr. cbn [rbind].
      apply IHr. lia.
Qed.

(** X2: the recursion allowance that the walk needs is exactly one call per
    level: on an arena that encodes a tree of height [h], an allowance of
    [h] calls or fewer ends in [RecursionError]. *)
Theorem tree_to_rules_recursion_error
    (clf : Classifier) (names : list string) (d : dtree) (depth : nat) :
  represents (tree_ clf) names 0 d ->
  features_named (tree_ clf) names ->
  (depth <= height d)%nat ->
  _tree_to_rules str_of_float depth clf names
  = Err (Raise RecursionError "maximum recursion depth exceeded").
Proof.
  intros Hrep Hnamed Hd.
  assert (HM : exists fname,
             mapM (feature_name_of names) (feature (tree_ clf)) = Ok fname).
  { apply mapM_total. unfold features_named in Hnamed.
    eapply Forall_impl; [|exact Hnamed].
    intros i [Hi | [s Hs]]; unfold feature_name_of.
    - subst i; simpl; eauto.
    - destruct (i =? TREE_UNDEFINED); eauto. }
  destruct HM as [fname HM].
  unfold _tree_to_rules. cbv zeta. rewrite HM. cbn [rbind].
  apply (recurse_too_deep HM Hrep). exact Hd.
Qed.

(** A call of [recurse] that returns has appended at least one rule and
    removed none. *)
Lemma recurse_appends (depth : nat) (t : Tree) (fname : list string) :
  forall node base rules rules',
  recurse str_of_float depth t fname node base rules = Ok rules' ->
  exists added, rules' = rules ++ added /\ added <> [].
Proof.
  induction depth as [|depth IH]; intros node base rules rules' H.
  - discriminate H.
  - cbn [recurse] in H.
    destruct (py_index (feature t) node) as [f|e]; [|discriminate H].
    cbn [rbind] in H.
    destruct (negb (f =? TREE_UNDEFINED)).
    + destruct (py_index fname node) as [nm|e]; [|discriminate H].
      cbn [rbind] in H.
      destruct (py_index (threshold t) node) as [thr|e]; [|discriminate H].
      cbn [rbind] in H.
      destruct (py_index (children_left t) node) as [cl|e]; [|discriminate H].
      cbn [rbind] in H.
      destruct (recurse str_of_float depth t fname cl _ rules)
        as [rules1|e] eqn:H1; [|discriminate H].
      cbn [rbind] in H.
      destruct (py_index (children_right t) node) as [cr|e]; [|discriminate H].
      cbn [rbind] in H.
      destruct (IH _ _ _ _ H1) as (a1 & -> & Ha1).
      destruct (IH _ _ _ _ H) as (a2 & -> & Ha2).
      exists (a1 ++ a2). split; [rewrite app_assoc; reflexivity|].
      destruct a1; [congruence | discriminate].
    + inversion H; subst. eexists; split; [reflexivity | discriminate].
Qed.

(** X3: whatever the arena, well formed or not, a call of [_tree_to_rules]
    that returns gives at least one rule. *)
Theorem tree_to_rules_returns_a_rule
    (depth : nat) (clf : Classifier) (names rules : list string) :
  _tree_to_rules str_of_float depth clf names = Ok rules ->
  rules <> [].
Proof.
  unfold _tree_to_rules. cbv zeta.
  destruct (mapM _ _) as [fname|e]; [|discriminate].
  cbn [rbind]. intros H.
  destruct (recurse_appends _ _ _ _ _ _ H) as (added & -> & Hadded).
  exact Hadded.
Qed.

End TreeWalkerErrors.

(** ** More on [fit] *)

Ltac bind_inv H :=
  let s := fresh "self" in
  let a := fresh "a" in
  let Hc := fresh "Hc" in
  apply bind_Ok in H; destruct H as (s & a & Hc & H);
  try (unfold lift, get, modify in Hc; inversion Hc; subst; clear Hc).

Ltac unfold_tree_to_rules_in H := unfold _tree_to_rules in H.
Ltac unfold_fit_in H := unfold fit in H.
Ltac unfold_fit_from_split_in H := unfold fit_from_split in H.

(** The computation leaves the hyper-parameters alone. *)
Definition same_hyper_parameters (s s' : FraudToRules) : Prop :=
  hyper_parameters s' = hyper_parameters s.

(** The computation leaves [max_samples_] alone. *)
Definition same_max_samples_ (s s' : FraudToRules) : Prop :=
  max_samples_ s' = max_samples_ s.

Section FitFacts.

Variable str_of_float : float -> string.
Variable recursion_limit : nat.
Variable check_X_y : ndarray -> list Z -> result (ndarray * list Z).
Variable check_array : ndarray -> result ndarray.
Variable shuffle : list nat -> list nat.
Variable tree_fit :
  nat -> pyval -> option Z -> pyval -> ndarray -> list Z -> result Classifier.
Variable pandas_DataFrame : ndarray -> option (list string) -> result DataFrame.
Variable query : DataFrame -> string -> result DataFrame.

Hypothesis shuffle_perm : forall l, Permutation l (shuffle l).

Notation fit_trees :=
  (fit_trees str_of_float recursion_limit tree_fit).
Notation fit_from_split :=
  (fit_from_split str_of_float recursion_limit tree_fit pandas_DataFrame query).
Notation fit :=
  (fit str_of_float recursion_limit check_X_y shuffle tree_fit
       pandas_DataFrame query).
Notation decision_function := (decision_function pandas_DataFrame query).
Notation predict := (predict check_array pandas_DataFrame query).
Notation _tree_to_rules := (_tree_to_rules str_of_float recursion_limit).
Notation reachable :=
  (reachable str_of_float recursion_limit check_X_y shuffle tree_fit
             pandas_DataFrame query).

(** *** The training loop *)

(** What one turn of the loop does with the tree of rank [i]: the learner
    returns [fst cr], whose rules are [snd cr]. *)
Definition trained (self : FraudToRules) (X_train : ndarray) (y : list Z)
    (i : nat) (cr : Classifier * list string) : Prop :=
  tree_fit i (max_features self) (max_depth self) (min_samples_split self)
           X_train y = Ok (fst cr)
  /\ _tree_to_rules (fst cr) (rule_feature_names self X_train) = Ok (snd cr).

Lemma trained_hyper s1 s2 X_train y i cr :
  hyper_parameters s1 = hyper_parameters s2 ->
  trained s1 X_train y i cr -> trained s2 X_train y i cr.
Proof.
  unfold hyper_parameters, trained, rule_feature_names.
  intros H. inversion H. congruence.
Qed.

Lemma fit_trees_Ok X_train y its :
  forall ests acc self self' acc',
  fit_trees X_train y its ests acc self = (self', Ok acc') ->
  exists crs,
    Forall2 (trained self X_train y) its crs
    /\ acc' = acc ++ List.concat (map snd crs)
    /\ hyper_parameters self' = hyper_parameters self
    /\ (its = [] -> self' = self)
    /\ (its <> [] ->
        estimators_ self' = Some (ests ++ map fst crs)
        /\ rules_ self' = Some (map Plain acc')).
Proof.
  induction its as [|i its IH]; intros ests acc self self' acc' H.
  - simpl in H. unfold ret in H. inversion H; subst.
    exists []. simpl. rewrite app_nil_r.
    repeat split; try constructor; congruence.
  - simpl in H.
    do 5 bind_inv H.
    match goal with
    | Hf : tree_fit _ _ _ _ _ _ = Ok ?clf,
      Hr : _tree_to_rules ?clf _ = Ok ?rules |- _ =>
        rename Hf into Hfit; rename Hr into Hrules;
        rename clf into c; rename rules into rs
    end.
    destruct (IH _ _ _ _ _ H) as (crs & Hall & Hacc & Hhyp & Hnil & Hcons).
    exists ((c, rs) :: crs).
    split; [|split; [|split; [|split]]].
    + constructor.
      * split; assumption.
      * eapply Forall2_impl; [|exact Hall].
        intros a b. apply trained_hyper. reflexivity.
    + rewrite Hacc. simpl. rewrite <- !app_assoc. reflexivity.
    + rewrite Hhyp. reflexivity.
    + discriminate.
    + intros _. destruct its as [|i' its].
      * rewrite (Hnil eq_refl). inversion Hall; subst. simpl.
        rewrite !app_nil_r. split; reflexivity.
      * destruct Hcons as [He Hr]; [discriminate|].
        rewrite He, Hr. simpl. rewrite <- app_assoc. split; reflexivity.
Qed.

(** A tree that was walked gave at least one rule. *)
Lemma trained_rules_nonempty self X_train y i cr :
  trained self X_train y i cr -> snd cr <> [].
Proof.
  intros [_ Hr]. unfold_tree_to_rules_in Hr. cbv zeta in Hr.
  destruct (mapM _ _) as [fname|e]; [|discriminate].
  cbn [rbind] in Hr.
  apply recurse_appends in Hr. destruct Hr as (added & -> & Hadded).
  exact Hadded.
Qed.

(** A loop that returns no rule made no turn. *)
Lemma fit_trees_no_rule X_train y its ests self self' :
  fit_trees X_train y its ests [] self = (self', Ok []) ->
  its = [] /\ self' = self.
Proof.
  intros H.
  apply fit_trees_Ok in H. destruct H as (crs & Hall & Hacc & _ & Hnil & _).
  destruct Hall as [|i cr its crs Hcr Hall].
  - split; [reflexivity | apply Hnil; reflexivity].
  - apply trained_rules_nonempty in Hcr. simpl in Hacc.
    destruct (snd cr); [congruence | discriminate].
Qed.

Lemma range_nil (n : Z) : range n = [] <-> n <= 0.
Proof.
  unfold range. split.
  - destruct (Z.to_nat n) eqn:Hn; [lia | discriminate].
  - intros Hn. replace (Z.to_nat n) with O by lia. reflexivity.
Qed.

(** *** Calls of [fit] that return *)

(** The estimator a call of [fit] that returns leaves. *)
Definition fitted_empty (k : Z) (self : FraudToRules) : FraudToRules :=
  set_rules_ (Some [])
    (set_rules (Some [])
       (set_estimators_ (Some [])
          (set_rules_ (Some [])
             (set_max_samples_ (Some k) self)))).

Lemma fit_from_split_returns_inv X_test X_train y self self' :
  fit_from_split X_test X_train y self = (self', Ok tt) ->
  n_estimators self <= 0
  /\ exists k df,
       resolve_max_samples self (shape0 X_train) = Ok k
       /\ pandas_DataFrame X_test (feature_names self) = Ok df
       /\ self' = fitted_empty k self.
Proof.
  intros H. unfold_fit_from_split_in H.
  do 10 bind_inv H.
  unfold modify in H. inversion H; subst; clear H.
  match goal with
  | Hs : sorted_by_key neg_second _ = Ok _ |- _ =>
      apply sorted_neg_second_Ok in Hs; destruct Hs as [-> ->]
  end.
  match goal with
  | Hq : mapM _ [] = Ok _ |- _ => simpl in Hq; inversion Hq; subst; clear Hq
  end.
  match goal with
  | Ht : fit_trees _ _ _ _ _ _ = _ |- _ =>
      apply fit_trees_no_rule in Ht; destruct Ht as [Hr ->]
  end.
  apply range_nil in Hr. split; [exact Hr|].
  do 2 eexists. split; [eassumption|]. split; [eassumption|]. reflexivity.
Qed.

Lemma fit_returns_inv X y self self' :
  fit X y self = (self', Ok tt) ->
  exists X' y' X_perm k df,
    check_X_y X y = Ok (X', y')
    /\ take_rows X' (shuffle (range (Z.of_nat (shape0 X')))) = Ok X_perm
    /\ n_estimators self <= 0
    /\ resolve_max_samples self (shape0 (rows_from X_perm (shape0 X' / 10)))
       = Ok k
    /\ pandas_DataFrame (rows_to X_perm (shape0 X' / 10)) (feature_names self)
       = Ok df
    /\ self' = fitted_empty k self.
Proof.
  intros H. unfold_fit_in H.
  bind_inv H. destruct a as [X' y'].
  bind_inv H.
  apply fit_from_split_returns_inv in H.
  destruct H as (Hn & k & df & Hk & Hdf & ->).
  exists X', y'. do 3 eexists.
  repeat (split; [eassumption|]). reflexivity.
Qed.

(** X4: a call of [fit] that requests at least one tree never returns,
    whatever the data and whatever the libraries do: each tree that is
    grown and walked contributes a rule, and the final sort raises on the
    first rule. *)
Theorem fit_with_a_tree_never_returns
    (X : ndarray) (y : list Z) (self : FraudToRules) :
  1 <= n_estimators self ->
  exists e, snd (fit X y self) = Err e.
Proof.
  intros Hn.
  destruct (fit X y self) as [self' [[]|e]] eqn:H.
  - apply fit_returns_inv in H.
    destruct H as (X' & y' & X_perm & k & df & _ & _ & Hle & _).
    lia.
  - simpl. eauto.
Qed.

(** X5: the calls of [fit] that return are exactly those where the inputs
    pass validation, no tree is requested, [max_samples] resolves to a
    number and the holdout frame can be built; the estimator is then left
    with that number in [max_samples_] and with empty [rules_],
    [estimators_] and [rules]. *)
Theorem fit_returns_iff
    (X : ndarray) (y : list Z) (self self' : FraudToRules) :
  fit X y self = (self', Ok tt) <->
  exists X' y' X_perm k df,
    check_X_y X y = Ok (X', y')
    /\ take_rows X' (shuffle (range (Z.of_nat (shape0 X')))) = Ok X_perm
    /\ n_estimators self <= 0
    /\ resolve_max_samples self (shape0 (rows_from X_perm (shape0 X' / 10)))
       = Ok k
    /\ pandas_DataFrame (rows_to X_perm (shape0 X' / 10)) (feature_names self)
       = Ok df
    /\ self' = fitted_empty k self.
Proof.
  split; [apply fit_returns_inv|].
  intros (X' & y' & X_perm & k & df & Hc & Ht & Hn & Hk & Hdf & ->).
  unfold_fit; unfold bind, lift. rewrite Hc, Ht.
  unfold_fit_from_split; unfold bind, get, lift, modify.
  rewrite Hk, Hdf.
  apply range_nil in Hn. rewrite Hn. reflexivity.
Qed.

(** *** Hyper-parameters *)

Lemma same_hyper_parameters_refl s : same_hyper_parameters s s.
Proof. reflexivity. Qed.

Lemma same_hyper_parameters_trans s1 s2 s3 :
  same_hyper_parameters s1 s2 -> same_hyper_parameters s2 s3 ->
  same_hyper_parameters s1 s3.
Proof. unfold same_hyper_parameters; congruence. Qed.

(** X6: [fit] assigns fitted attributes only: whether it returns or raises,
    and wherever it raises, the ten hyper-parameters of the estimator are
    those it had before the call. *)
Theorem fit_keeps_hyper_parameters
    (X : ndarray) (y : list Z) (self : FraudToRules) :
  hyper_parameters (fst (fit X y self)) = hyper_parameters self.
Proof.
  assert (Hp : preserves same_hyper_parameters (fit X y)).
  { apply fit_preserves;
      [exact same_hyper_parameters_refl | exact same_hyper_parameters_trans
      | intros v s; reflexivity ..]. }
  exact (Hp self).
Qed.

(** *** [max_samples] *)

(** Once the inputs pass validation the rows are shuffled and split, and
    the rest of [fit] runs on the two parts. *)
Lemma fit_to_split X y X' y' self :
  check_X_y X y = Ok (X', y') ->
  exists X_perm,
    take_rows X' (shuffle (range (Z.of_nat (shape0 X')))) = Ok X_perm
    /\ shape0 X_perm = shape0 X'
    /\ fit X y self
       = fit_from_split (rows_to X_perm (shape0 X' / 10))
                        (rows_from X_perm (shape0 X' / 10)) y' self.
Proof.
  intros Hc.
  destruct (@shuffled_rows shuffle shuffle_perm X') as (Xp & Hp & Hshape & _).
  exists Xp. split; [exact Hp|]. split; [exact Hshape|].
  unfold_fit; unfold bind, lift. rewrite Hc, Hp. reflexivity.
Qed.

Lemma shape0_rows_from X k : shape0 (rows_from X k) = (shape0 X - k)%nat.
Proof. unfold shape0, rows_from; simpl. apply length_skipn. Qed.

Lemma shape0_rows_to X k : shape0 (rows_to X k) = Nat.min k (shape0 X).
Proof. unfold shape0, rows_to; simpl. apply length_firstn. Qed.

Lemma same_max_samples__refl s : same_max_samples_ s s.
Proof. reflexivity. Qed.

Lemma same_max_samples__trans s1 s2 s3 :
  same_max_samples_ s1 s2 -> same_max_samples_ s2 s3 ->
  same_max_samples_ s1 s3.
Proof. unfold same_max_samples_; congruence. Qed.

(** [max_samples_] is assigned once, before the loop, and stays. *)
Lemma fit_from_split_max_samples_ X_test X_train y self k :
  resolve_max_samples self (shape0 X_train) = Ok k ->
  max_samples_ (fst (fit_from_split X_test X_train y self)) = Some k.
Proof.
  intros Hk. unfold_fit_from_split. cbv zeta.
  unfold bind at 1. unfold get at 1.
  unfold bind at 1. unfold lift at 1. rewrite Hk.
  unfold bind at 1. unfold modify at 1.
  match goal with
  | |- max_samples_ (fst (?c ?s)) = _ =>
      assert (Hp : preserves same_max_samples_ c)
  end.
  { repeat (first
      [ apply fit_trees_preserves;
          [ exact same_max_samples__refl | exact same_max_samples__trans
          | intros v s; reflexivity | intros rs s; reflexivity ]
      | apply preserves_get; exact same_max_samples__refl
      | apply preserves_lift; exact same_max_samples__refl
      | apply preserves_bind; [exact same_max_samples__trans | | intros ?]
      | intros s; reflexivity ]). }
  rewrite (Hp _). reflexivity.
Qed.

(** X7: a string [max_samples], the string ['auto'] that the message lists
    as a valid choice included, is rejected with [ValueError] once the
    inputs pass validation, and the estimator is left as it was. *)
Theorem fit_rejects_string_max_samples
    (self : FraudToRules) (X X' : ndarray) (y y' : list Z) (s : string) :
  max_samples self = PyStr s ->
  check_X_y X y = Ok (X', y') ->
  fit X y self
  = (self,
     Err (Raise ValueError
            "max_samples (%s) is not supported.Valid choices are: 'auto', int orfloat")).
Proof.
  intros Hms Hc.
  destruct (fit_to_split self Hc) as (Xp & _ & _ & ->).
  unfold_fit_from_split; unfold bind, get, lift, resolve_max_samples.
  rewrite Hms. reflexivity.
Qed.

(** X8: an integer [max_samples] is only clamped from above: once the
    inputs pass validation, [max_samples_] is the smaller of [max_samples]
    and the number of training rows (the rows left after the holdout),
    zero and negative values included, and it keeps that value wherever
    [fit] raises afterwards. *)
Theorem fit_clamps_integer_max_samples
    (self : FraudToRules) (X X' : ndarray) (y y' : list Z) (k : Z) :
  max_samples self = PyInt k ->
  check_X_y X y = Ok (X', y') ->
  max_samples_ (fst (fit X y self))
  = Some (Z.min k (Z.of_nat (shape0 X' - shape0 X' / 10))).
Proof.
  intros Hms Hc.
  destruct (fit_to_split self Hc) as (Xp & _ & Hshape & ->).
  apply fit_from_split_max_samples_.
  rewrite shape0_rows_from, Hshape.
  unfold resolve_max_samples. rewrite Hms.
  set (n := Z.of_nat (shape0 X' - shape0 X' / 10)).
  rewrite Z.gtb_ltb. destruct (Z.ltb_spec n k) as [Hlt | Hge].
  - rewrite Z.min_r by lia. reflexivity.
  - rewrite Z.min_l by lia. reflexivity.
Qed.

(** *** The split *)

(** [X[ind]] when it succeeds: the rows at the listed positions. *)
Lemma mapM_py_index_nth {A : Type} (l : list A) (d : A) (ind : list nat)
    (l' : list A) :
  mapM (fun i => py_index l (Z.of_nat i)) ind = Ok l' ->
  l' = map (fun i => nth i l d) ind.
Proof.
  revert l'; induction ind as [|i ind IH]; simpl; intros l' H.
  - inversion H; reflexivity.
  - destruct (py_index l (Z.of_nat i)) as [a|e] eqn:Hi; simpl in H;
      [|discriminate].
    destruct (mapM _ ind) as [r|e]; simpl in H; [|discriminate].
    inversion H; subst; clear H. f_equal; [|apply IH; reflexivity].
    apply py_index_Ok in Hi. cbv zeta in Hi.
    assert (Hi0 : (Z.of_nat i <? 0) = false) by (apply Z.ltb_ge; lia).
    rewrite Hi0, Nat2Z.id in Hi. destruct Hi as [_ Hn].
    symmetry. apply nth_error_nth. exact Hn.
Qed.

Lemma map_nth_seq {A : Type} (l : list A) (d : A) :
  map (fun i => nth i l d) (seq 0 (List.length l)) = l.
Proof.
  apply nth_ext with (d := d) (d' := d).
  - rewrite length_map, length_seq. reflexivity.
  - intros n Hn. rewrite length_map, length_seq in Hn.
    rewrite (nth_indep _ d (nth 0 l d)) by (rewrite length_map, length_seq; exact Hn).
    rewrite (map_nth (fun i => nth i l d)).
    rewrite seq_nth by exact Hn. reflexivity.
Qed.

Lemma take_rows_Permutation (X X_perm : ndarray) (ind : list nat) :
  Permutation (seq 0 (shape0 X)) ind ->
  take_rows X ind = Ok X_perm ->
  Permutation (rows X) (rows X_perm) /\ ncols X_perm = ncols X.
Proof.
  intros HP. unfold take_rows.
  destruct (mapM _ ind) as [rs|e] eqn:Hrs; simpl; [|discriminate].
  intros H; inversion H; subst; clear H. simpl. split; [|reflexivity].
  rewrite (mapM_py_index_nth _ [] _ Hrs).
  rewrite <- (map_nth_seq (rows X) []) at 1.
  apply Permutation_map. exact HP.
Qed.

(** X9: the split is a partition of the validated rows: every row goes to
    the holdout or to the training part, once; the holdout receives a
    tenth of the rows, rounded down, and the training part the others.
    The labels are handed on whole. *)
Theorem fit_split_partitions_rows
    (self : FraudToRules) (X X' : ndarray) (y y' : list Z) :
  check_X_y X y = Ok (X', y') ->
  exists X_test X_train,
    fit X y self = fit_from_split X_test X_train y' self
    /\ Permutation (rows X') (rows X_test ++ rows X_train)
    /\ shape0 X_test = (shape0 X' / 10)%nat
    /\ shape0 X_train = (shape0 X' - shape0 X' / 10)%nat
    /\ ncols X_test = ncols X' /\ ncols X_train = ncols X'.
Proof.
  intros Hc.
  destruct (fit_to_split self Hc) as (Xp & Hp & Hshape & Hfit).
  assert (Hind : Permutation (seq 0 (shape0 X'))
                             (shuffle (range (Z.of_nat (shape0 X'))))).
  { unfold range. rewrite Nat2Z.id. apply shuffle_perm. }
  destruct (@take_rows_Permutation X' Xp _ Hind Hp) as [Hperm Hcols].
  exists (rows_to Xp (shape0 X' / 10)), (rows_from Xp (shape0 X' / 10)).
  split; [exact Hfit|]. split; [|split; [|split; [|split]]].
  - simpl. rewrite firstn_skipn. exact Hperm.
  - rewrite shape0_rows_to, Hshape. apply Nat.min_l.
    apply Nat.Div0.div_le_upper_bound. lia.
  - rewrite shape0_rows_from, Hshape. reflexivity.
  - exact Hcols.
  - exact Hcols.
Qed.

(** *** Scoring after [fit] *)

Lemma py_slice_to_map {A B : Type} (f : A -> B) (l : list A) (n : Z) :
  py_slice_to (map f l) n = map f (py_slice_to l n).
Proof.
  unfold py_slice_to. rewrite length_map.
  destruct (n <? 0); apply firstn_map.
Qed.

(** The scoring loop cannot unpack a plain rule string. *)
Lemma foldM_score_plain df rs scores scores' :
  foldM (score_rule query df) (map Plain rs) scores = Ok scores' ->
  rs = [] /\ scores' = scores.
Proof.
  destruct rs as [|r rs]; simpl.
  - intros H; inversion H; auto.
  - destruct r as [|c1 [|c2 [|c3 r]]]; simpl; try discriminate.
    destruct (query df _) as [q|e]; simpl; [|discriminate].
    destruct (mapM _ (index q)); simpl; discriminate.
Qed.

Lemma reachable_plain_rules self :
  reachable self ->
  rules_ self = None \/ exists rs, rules_ self = Some (map Plain rs).
Proof.
  induction 1 as [|self X y _ IH].
  - left; reflexivity.
  - destruct (@fit_plain_rules str_of_float recursion_limit check_X_y shuffle
                tree_fit pandas_DataFrame query X y self) as [Heq | Hpl].
    + rewrite Heq. exact IH.
    + right; exact Hpl.
Qed.

(** X10: [fit] followed by [decision_function]: on every estimator built by
    the constructor and calls of [fit], a call of [decision_function] that
    returns has applied no rule: every score is [-0.0]. *)
Theorem decision_function_after_fit_is_trivial
    (self : FraudToRules) (X : ndarray) (scores : list float) :
  reachable self ->
  decision_function self X = Ok scores ->
  scores = repeat (-0)%float (shape0 X).
Proof.
  intros Hreach. unfold_decision_function.
  destruct (reachable_plain_rules Hreach) as [Hnone | [rs Hrs]].
  - rewrite Hnone. discriminate.
  - rewrite Hrs, py_slice_to_map.
    destruct (pandas_DataFrame X _) as [df|e]; cbn [rbind]; [|discriminate].
    destruct (foldM _ _ _) as [s'|e] eqn:Hloop; cbn [rbind]; [|discriminate].
    apply foldM_score_plain in Hloop. destruct Hloop as [_ ->].
    intros H; inversion H; subst; clear H.
    rewrite map_repeat. reflexivity.
Qed.

(** *** The shape of the outputs *)

Lemma iadd_at_length scores idx w scores' :
  iadd_at scores idx w = Ok scores' ->
  List.length scores' = List.length scores.
Proof.
  unfold iadd_at. destruct (mapM _ idx); simpl; [|discriminate].
  intros H; inversion H; subst.
  rewrite length_map, length_combine, length_seq. apply Nat.min_id.
Qed.

Lemma score_rule_length df scores e scores' :
  score_rule query df scores e = Ok scores' ->
  List.length scores' = List.length scores.
Proof.
  destruct e as [r | r w]; simpl.
  - destruct r as [|c1 [|c2 [|c3 r]]]; try discriminate.
    destruct (query df _) as [q|e]; simpl; [|discriminate].
    destruct (mapM _ (index q)); simpl; discriminate.
  - destruct (query df r) as [q|e]; simpl; [|discriminate].
    apply iadd_at_length.
Qed.

Lemma foldM_score_rule_length df selected :
  forall scores scores',
  foldM (score_rule query df) selected scores = Ok scores' ->
  List.length scores' = List.length scores.
Proof.
  induction selected as [|e selected IH]; simpl; intros scores scores' H.
  - inversion H; reflexivity.
  - destruct (score_rule query df scores e) as [s1|err] eqn:H1; simpl in H;
      [|discriminate].
    rewrite (IH _ _ H). apply (score_rule_length _ _ _ H1).
Qed.

(** X11: whatever [rules_] holds, a call of [decision_function] that
    returns gives one score per row of its argument, and a call of
    [predict] that returns gives one label per row of the validated input,
    each label being [+1] or [-1]. *)
Theorem outputs_have_one_entry_per_row (self : FraudToRules) (X : ndarray) :
  (forall scores, decision_function self X = Ok scores ->
     List.length scores = shape0 X)
  /\ (forall labels, predict self X = Ok labels ->
       exists X', check_array X = Ok X'
                  /\ List.length labels = shape0 X'
                  /\ Forall (fun l => l = 1 \/ l = -1) labels).
Proof.
  assert (Hdf : forall s X0 scores, decision_function s X0 = Ok scores ->
                  List.length scores = shape0 X0).
  { intros s X0 scores. unfold_decision_function.
    destruct (rules_ s) as [all_rules|]; [|discriminate].
    destruct (pandas_DataFrame X0 _) as [df|e]; cbn [rbind]; [|discriminate].
    destruct (foldM _ _ _) as [s'|e] eqn:Hloop; cbn [rbind]; [|discriminate].
    intros H; inversion H; subst; clear H.
    apply foldM_score_rule_length in Hloop. rewrite length_map, Hloop.
    apply repeat_length. }
  split; [apply Hdf|].
  intros labels. unfold_predict.
  destruct (check_is_fitted self _); cbn [rbind]; [|discriminate].
  destruct (check_array X) as [X'|e]; cbn [rbind]; [|discriminate].
  destruct (decision_function self X') as [scores|e] eqn:Hs; cbn [rbind];
    [|discriminate].
  intros H; inversion H; subst; clear H.
  exists X'. split; [reflexivity|]. split.
  - rewrite length_map. apply (Hdf _ _ _ Hs).
  - apply Forall_map. apply Forall_forall. intros s _.
    unfold label_of. destruct (s =? 0)%float; [left | right]; reflexivity.
Qed.

(** *** The attributes after the training loop *)

(** The computation leaves [rules] alone. *)
Definition same_rules (s s' : FraudToRules) : Prop := rules s' = rules s.

Lemma fit_trees_same_rules X_train y its ests acc self :
  rules (fst (fit_trees X_train y its ests acc self)) = rules self.
Proof.
  assert (Hp : preserves same_rules (fit_trees X_train y its ests acc)).
  { apply fit_trees_preserves.
    - intros s; reflexivity.
    - unfold same_rules; congruence.
    - intros v s; reflexivity.
    - intros rs s; reflexivity. }
  exact (Hp self).
Qed.

Lemma take_rows_ncols X ind X_perm :
  take_rows X ind = Ok X_perm -> ncols X_perm = ncols X.
Proof.
  unfold take_rows. destruct (mapM _ ind); simpl; [|discriminate].
  intros H; inversion H; reflexivity.
Qed.

(** Line 212 pairs each rule with its query result, in order. *)
Lemma mapM_query_pairs df (l : list string) ps :
  mapM (fun r => (q <- query df r ;; Ok (r, q))%res) l = Ok ps ->
  map fst ps = l /\ Forall (fun p => query df (fst p) = Ok (snd p)) ps.
Proof.
  revert ps; induction l as [|r l IH]; simpl; intros ps H.
  - inversion H; subst. split; [reflexivity | constructor].
  - destruct (query df r) as [q|e] eqn:Hq; simpl in H; [|discriminate].
    destruct (mapM _ l) as [ps'|e]; simpl in H; [|discriminate].
    inversion H; subst; clear H.
    destruct (IH ps' eq_refl) as [Hfst Hall].
    split; [simpl; f_equal; exact Hfst|].
    constructor; [exact Hq | exact Hall].
Qed.

(** X12: when [fit] has assigned [rules] (line 212), the training loop has
    run to its end: [estimators_] holds one tree per requested estimator,
    the tree the learner returned at each turn on the training rows and
    the whole label vector; [rules_] holds the rules of these trees, tree
    after tree in the order of the walk, as plain strings; and [rules]
    holds these same rules in the same order, each paired with the result
    of its query on the frame of the holdout rows. *)
Theorem fit_trained_state
    (self : FraudToRules) (X X' : ndarray) (y y' : list Z)
    (pairs : list (string * DataFrame)) :
  check_X_y X y = Ok (X', y') ->
  rules self <> Some pairs ->
  rules (fst (fit X y self)) = Some pairs ->
  exists (X_perm : ndarray) (df : DataFrame)
         (crs : list (Classifier * list string)),
    take_rows X' (shuffle (range (Z.of_nat (shape0 X')))) = Ok X_perm
    /\ pandas_DataFrame (rows_to X_perm (shape0 X' / 10)) (feature_names self)
       = Ok df
    /\ List.length crs = Z.to_nat (n_estimators self)
    /\ Forall2 (fun i cr =>
                  tree_fit i (max_features self) (max_depth self)
                    (min_samples_split self)
                    (rows_from X_perm (shape0 X' / 10)) y' = Ok (fst cr)
                  /\ _tree_to_rules (fst cr) (rule_feature_names self X')
                     = Ok (snd cr))
               (range (n_estimators self)) crs
    /\ estimators_ (fst (fit X y self)) = Some (map fst crs)
    /\ rules_ (fst (fit X y self))
       = Some (map Plain (List.concat (map snd crs)))
    /\ map fst pairs = List.concat (map snd crs)
    /\ Forall (fun p => query df (fst p) = Ok (snd p)) pairs.
Proof.
  intros Hc Hne.
  destruct (fit_to_split self Hc) as (Xp & Hp & Hshape & ->).
  pose proof (take_rows_ncols _ _ Hp) as Hcols.
  unfold_fit_from_split; unfold bind, get, lift, modify.
  destruct (resolve_max_samples self _) as [k|e]; [|simpl; congruence].
  match goal with
  | |- context [fit_trees ?Xt ?yy ?its ?ests ?acc ?s] =>
      pose proof (@fit_trees_same_rules Xt yy its ests acc s) as Hrules;
      destruct (fit_trees Xt yy its ests acc s) as [s4 [rl|e]] eqn:Ht
  end; simpl in Hrules; [|simpl; congruence].
  destruct (pandas_DataFrame _ _) as [df|e] eqn:Hdf; [|simpl; congruence].
  destruct (mapM _ rl) as [ps|e] eqn:Hps; [|simpl; congruence].
  apply mapM_query_pairs in Hps. destruct Hps as [Hps Hquery].
  apply fit_trees_Ok in Ht.
  destruct Ht as (crs & Hall & Hacc & _ & Hnil & Hcons). simpl in Hacc.
  assert (Hlen : List.length crs = Z.to_nat (n_estimators self)).
  { rewrite <- (Forall2_length Hall). unfold range. apply length_seq. }
  assert (Hwalk : Forall2 (fun i cr =>
                    tree_fit i (max_features self) (max_depth self)
                      (min_samples_split self)
                      (rows_from Xp (shape0 X' / 10)) y' = Ok (fst cr)
                    /\ _tree_to_rules (fst cr) (rule_feature_names self X')
                       = Ok (snd cr))
                    (range (n_estimators self)) crs).
  { eapply Forall2_impl; [|exact Hall].
    intros i cr [Hfit Hcr]. split; [exact Hfit|].
    unfold rule_feature_names in *. simpl in Hcr. rewrite Hcols in Hcr.
    exact Hcr. }
  assert (Hstate : estimators_ s4 = Some (map fst crs)
                   /\ rules_ s4 = Some (map Plain rl)).
  { destruct (range (n_estimators self)) as [|i its] eqn:Hr.
    - rewrite (Hnil eq_refl). inversion Hall; subst. split; reflexivity.
    - apply Hcons. discriminate. }
  destruct Hstate as [Hests Hrs].
  destruct (sorted_by_key neg_second rl) as [srt|e] eqn:Hs; simpl;
    intros Hfin; exists Xp, df, crs;
    (split; [exact Hp|]); (split; [exact Hdf|]);
    (split; [exact Hlen|]); (split; [exact Hwalk|]);
    (split; [exact Hests|]).
  - apply sorted_neg_second_Ok in Hs. destruct Hs as [Hrl ->].
    inversion Hfin; subst ps.
    rewrite <- Hacc, Hps, Hrl.
    split; [reflexivity|]. split; [reflexivity | exact Hquery].
  - inversion Hfin; subst ps.
    rewrite <- Hacc, Hps.
    split; [exact Hrs|]. split; [reflexivity | exact Hquery].
Qed.

End FitFacts.

(** ** The further properties at concrete inputs *)

Module Cases.

(** A stump whose split names feature 1, over a single feature. *)
Definition bad_index_tree : Tree :=
  mkTree [1; TREE_UNDEFINED; TREE_UNDEFINED]
         [0.5%float; (-2)%float; (-2)%float] [1; -1; -1] [2; -1; -1].

(** Estimators whose [max_samples] is the string ['auto'] and the integer
    100. *)
Definition auto_max_samples : FraudToRules :=
  __init__ 1 None (PyStr "auto") (PyFloat 1) None (PyInt 2) false 1 None 0.

Definition large_max_samples : FraudToRules :=
  __init__ 1 None (PyInt 100) (PyFloat 1) None (PyInt 2) false 1 None 0.

(** [fit] with the reference collaborators and the evaluator that knows
    the two rules of the stump. *)
Definition fit_x (X : ndarray) (y : list Z) : M unit :=
  fit Reference.str_of_float 100 Reference.check_X_y Reference.shuffle
      Reference.tree_fit Reference.pandas_DataFrame
      (Reference.query Scenario.table_x) X y.

End Cases.

(** Feature 1 does not exist among the names [["x"]]. *)
Lemma tree_to_rules_bad_feature_index_witness :
  _tree_to_rules Reference.str_of_float 100
    (mkClassifier Cases.bad_index_tree) ["x"]
  = Err (Raise IndexError "index out of range").
Proof.
  apply (@tree_to_rules_bad_feature_index Reference.str_of_float 100
           (mkClassifier Cases.bad_index_tree) ["x"] 1).
  - simpl. left. reflexivity.
  - discriminate.
  - right. simpl. lia.
Defined.

(** The two-split tree has height 2: two nested calls are not enough. *)
Lemma tree_to_rules_recursion_error_witness :
  _tree_to_rules Reference.str_of_float 2
    (mkClassifier Scenario.two_split_tree) ["age"; "amount"]
  = Err (Raise RecursionError "maximum recursion depth exceeded").
Proof.
  apply (@tree_to_rules_recursion_error Reference.str_of_float
           (mkClassifier Scenario.two_split_tree) ["age"; "amount"]
           Scenario.two_split_dtree 2).
  - eapply rep_node with (f := 0) (cl := 1) (cr := 2);
      [reflexivity | discriminate | reflexivity | reflexivity
      | reflexivity | reflexivity | | ].
    + apply rep_leaf; reflexivity.
    + eapply rep_node with (f := 1) (cl := 3) (cr := 4);
        [reflexivity | discriminate | reflexivity | reflexivity
        | reflexivity | reflexivity | | ];
        apply rep_leaf; reflexivity.
  - unfold features_named; simpl.
    repeat (apply Forall_cons;
            [first [left; reflexivity | right; eexists; reflexivity]|]).
    apply Forall_nil.
  - simpl; lia.
Defined.

(** The walk of the two-split tree returns three rules. *)
Lemma tree_to_rules_returns_a_rule_witness :
  exists rules,
    _tree_to_rules Reference.str_of_float 3
      (mkClassifier Scenario.two_split_tree) ["age"; "amount"] = Ok rules
    /\ rules <> [].
Proof.
  eexists. split; [reflexivity|].
  apply (@tree_to_rules_returns_a_rule Reference.str_of_float 3
           (mkClassifier Scenario.two_split_tree) ["age"; "amount"]).
  reflexivity.
Defined.

(** The default number of trees, two rows: [fit] raises. *)
Lemma fit_with_a_tree_never_returns_witness :
  exists e, snd (Cases.fit_x Scenario.X2 [1; -1] Scenario.named) = Err e.
Proof.
  apply (@fit_with_a_tree_never_returns Reference.str_of_float 100
           Reference.check_X_y Reference.shuffle Reference.tree_fit
           Reference.pandas_DataFrame (Reference.query Scenario.table_x)
           Scenario.X2 [1; -1] Scenario.named).
  vm_compute; discriminate.
Defined.

(** A call that returns, and what made it return. *)
Lemma fit_returns_iff_witness :
  exists X' y' X_perm k df,
    Reference.check_X_y Scenario.X1 [1] = Ok (X', y')
    /\ take_rows X' (Reference.shuffle (range (Z.of_nat (shape0 X'))))
       = Ok X_perm
    /\ n_estimators Scenario.no_tree <= 0
    /\ resolve_max_samples Scenario.no_tree
         (shape0 (rows_from X_perm (shape0 X' / 10))) = Ok k
    /\ Reference.pandas_DataFrame (rows_to X_perm (shape0 X' / 10))
         (feature_names Scenario.no_tree) = Ok df
    /\ fitted_empty 1 Scenario.no_tree = fitted_empty k Scenario.no_tree.
Proof.
  apply (proj1 (@fit_returns_iff Reference.str_of_float 100
                  Reference.check_X_y Reference.shuffle Reference.tree_fit
                  Reference.pandas_DataFrame (Reference.query [])
                  Scenario.X1 [1] Scenario.no_tree
                  (fitted_empty 1 Scenario.no_tree))).
  reflexivity.
Defined.

(** [max_samples = 'auto'] is rejected. *)
Lemma fit_rejects_string_max_samples_witness :
  Scenario.fit Scenario.X2 [1; -1] Cases.auto_max_samples
  = (Cases.auto_max_samples,
     Err (Raise ValueError
            "max_samples (%s) is not supported.Valid choices are: 'auto', int orfloat")).
Proof.
  apply (@fit_rejects_string_max_samples Reference.str_of_float 100
           Reference.check_X_y Reference.shuffle Reference.tree_fit
           Reference.pandas_DataFrame (Reference.query [])
           reference_shuffle_perm
           Cases.auto_max_samples Scenario.X2 Scenario.X2 [1; -1] [1; -1]
           "auto").
  - reflexivity.
  - reflexivity.
Defined.

(** Ten rows, [max_samples = 100]: nine training rows, [max_samples_ = 9]. *)
Lemma fit_clamps_integer_max_samples_witness :
  max_samples_ (fst (Scenario.fit Scenario.X10 Scenario.y10
                       Cases.large_max_samples))
  = Some 9.
Proof.
  apply (@fit_clamps_integer_max_samples Reference.str_of_float 100
           Reference.check_X_y Reference.shuffle Reference.tree_fit
           Reference.pandas_DataFrame (Reference.query [])
           reference_shuffle_perm
           Cases.large_max_samples Scenario.X10 Scenario.X10
           Scenario.y10 Scenario.y10 100).
  - reflexivity.
  - reflexivity.
Defined.

(** Ten rows: one in the holdout, nine for training. *)
Lemma fit_split_partitions_rows_witness :
  exists X_test X_train,
    Scenario.fit Scenario.X10 Scenario.y10 default_estimator
    = fit_from_split Reference.str_of_float 100 Reference.tree_fit
        Reference.pandas_DataFrame (Reference.query [])
        X_test X_train Scenario.y10 default_estimator
    /\ Permutation (rows Scenario.X10) (rows X_test ++ rows X_train)
    /\ shape0 X_test = 1%nat
    /\ shape0 X_train = 9%nat.
Proof.
  destruct (@fit_split_partitions_rows Reference.str_of_float 100
              Reference.check_X_y Reference.shuffle Reference.tree_fit
              Reference.pandas_DataFrame (Reference.query [])
              reference_shuffle_perm
              default_estimator Scenario.X10 Scenario.X10
              Scenario.y10 Scenario.y10)
    as (X_test & X_train & Hfit & Hperm & Htest & Htrain & _).
  - reflexivity.
  - exists X_test, X_train.
    split; [exact Hfit|]. split; [exact Hperm|].
    split; [exact Htest | exact Htrain].
Defined.

(** After a call of [fit] that returned, the single row scores [-0.0]. *)
Lemma decision_function_after_fit_is_trivial_witness :
  exists scores,
    decision_function Reference.pandas_DataFrame (Reference.query [])
      (fst (Scenario.fit Scenario.X1 [1] Scenario.no_tree)) Scenario.X1
    = Ok scores
    /\ scores = repeat (-0)%float (shape0 Scenario.X1).
Proof.
  eexists. split; [reflexivity|].
  apply (@decision_function_after_fit_is_trivial Reference.str_of_float 100
           Reference.check_X_y Reference.shuffle Reference.tree_fit
           Reference.pandas_DataFrame (Reference.query [])
           (fst (Scenario.fit Scenario.X1 [1] Scenario.no_tree))
           Scenario.X1).
  - unfold Scenario.fit. apply reach_fit. apply reach_init.
  - reflexivity.
Defined.

(** The scoring scenario: three records, three scores. *)
Lemma outputs_have_one_entry_per_row_witness :
  exists scores,
    decision_function Reference.pandas_DataFrame Scenario.query
      Scenario.estimator Scenario.records = Ok scores
    /\ List.length scores = shape0 Scenario.records.
Proof.
  eexists. split; [reflexivity|].
  apply (proj1 (@outputs_have_one_entry_per_row Reference.check_array
                  Reference.pandas_DataFrame Scenario.query
                  Scenario.estimator Scenario.records)).
  reflexivity.
Defined.

(** One tree on two rows: the stump is stored, its two rules are in
    [rules_] and, paired with their results on the empty holdout, in
    [rules]. *)
Lemma fit_trained_state_witness :
  exists (df : DataFrame) (crs : list (Classifier * list string)),
    List.length crs = 1%nat
    /\ estimators_ (fst (Cases.fit_x Scenario.X2 [1; -1] Scenario.named))
       = Some (map fst crs)
    /\ rules_ (fst (Cases.fit_x Scenario.X2 [1; -1] Scenario.named))
       = Some (map Plain (List.concat (map snd crs)))
    /\ ["x <= 0.5"; "x > 0.5"] = List.concat (map snd crs)
    /\ Reference.query Scenario.table_x df "x <= 0.5"
       = Ok (mkFrame [] (mkArray 1 [])).
Proof.
  destruct (@fit_trained_state Reference.str_of_float 100
              Reference.check_X_y Reference.shuffle Reference.tree_fit
              Reference.pandas_DataFrame (Reference.query Scenario.table_x)
              reference_shuffle_perm
              Scenario.named Scenario.X2 Scenario.X2 [1; -1] [1; -1]
              [("x <= 0.5", mkFrame [] (mkArray 1 []));
               ("x > 0.5", mkFrame [] (mkArray 1 []))])
    as (Xp & df & crs & _ & _ & Hlen & _ & Hests & Hrules & Hpairs & Hquery).
  - reflexivity.
  - discriminate.
  - reflexivity.
  - exists df, crs. split; [exact Hlen|]. split; [exact Hests|].
    split; [exact Hrules|]. split; [exact Hpairs|].
    apply Forall_inv in Hquery. exact Hquery.
Defined.
